(** * gpp_exception.hpp: the exception objects of optimal_learning and
      the ThrowException wrapper

    A shallow embedding of the header [moe/optimal_learning/cpp/gpp_exception.hpp]:
    - C++ strings are [string]; [char const *] arguments are the strings they
      point to (the null pointer, which the header allows for the "optional"
      arguments, is outside the model: neither the header nor the
      specification says what the constructors print for it);
    - [int] is [Z] (no arithmetic is done on payloads, they are stored and
      printed), [double] is the kernel's binary64 [float];
    - a class is a record of its data members, a constructor a function to
      that record, a [const] accessor a projection; a derived class is a
      record around its base subobject;
    - class heads, [std::is_base_of], [std::is_floating_point] and the
      matching of handlers live in a small reified table of C++ types;
    - [throw] is the exception monad [outcome]. *)

From Stdlib Require Import ZArith String Ascii List Bool Lia.
From Stdlib Require Import DecimalString PrimFloat.
Import ListNotations.

Local Open Scope string_scope.

Set Implicit Arguments.

(** ** Strings *)

(** [s] has [p] as a substring. *)
Definition substring_of (p s : string) : Prop :=
  exists pre post, s = pre ++ p ++ post.

(** The strings of [parts] occur in [s] one after the other, without
    overlap, in the order of the list. *)
Fixpoint contains_in_order (parts : list string) (s : string) : Prop :=
  match parts with
  | [] => True
  | p :: ps => exists pre rest, s = pre ++ p ++ rest /\ contains_in_order ps rest
  end.

(** The executable counterpart: the rest of [s] after the leftmost
    occurrence of [p]. *)
Fixpoint drop_prefix (p s : string) : option string :=
  match p, s with
  | EmptyString, _ => Some s
  | String a p', String b s' => if Ascii.eqb a b then drop_prefix p' s' else None
  | String _ _, EmptyString => None
  end.

Fixpoint after_first (p s : string) : option string :=
  match drop_prefix p s with
  | Some rest => Some rest
  | None => match s with
            | EmptyString => None
            | String _ s' => after_first p s'
            end
  end.

Fixpoint occurs_in_order (parts : list string) (s : string) : bool :=
  match parts with
  | [] => true
  | p :: ps => match after_first p s with
               | Some rest => occurs_in_order ps rest
               | None => false
               end
  end.

(** [int] values, and an [int] as text: the decimal numeral, with a
    leading minus sign for negative values. *)
Definition int := Z.

Definition int_to_string (n : int) : string :=
  NilZero.string_of_int (Z.to_int n).

(** ** The location token

    [OL_STRINGIFY_EXPANSION(__LINE__)] is the decimal numeral of the line,
    and [OL_STRINGIFY_FILE_AND_LINE] is the literal
    ["(" __FILE__ ": " OL_STRINGIFY_EXPANSION(__LINE__) ")"]. *)
Definition OL_STRINGIFY_EXPANSION (line : Z) : string := int_to_string line.

Definition OL_STRINGIFY_FILE_AND_LINE (file : string) (line : Z) : string :=
  "(" ++ file ++ ": " ++ OL_STRINGIFY_EXPANSION line ++ ")".

(** ** C++ types, as far as the header looks at them *)

Inductive access : Type := Public | Protected | Private.

(** A type is a fundamental type or a class with the base-specifier list
    of its class head, each base with its access specifier.  Classes are
    compared by name. *)
Inductive cpp_type : Type :=
| Fundamental (name : string)
| Class (name : string) (bases : base_list)
with base_list : Type :=
| NoBases
| Base (a : access) (t : cpp_type) (more : base_list).

Definition type_name (t : cpp_type) : string :=
  match t with
  | Fundamental n => n
  | Class n _ => n
  end.

Definition is_class (t : cpp_type) : bool :=
  match t with
  | Fundamental _ => false
  | Class _ _ => true
  end.

(** [b] names a direct or indirect base class of [d], whatever the access. *)
Fixpoint has_base (b : string) (d : cpp_type) : bool :=
  match d with
  | Fundamental _ => false
  | Class _ bases => has_base_in b bases
  end
with has_base_in (b : string) (l : base_list) : bool :=
  match l with
  | NoBases => false
  | Base _ t more =>
      String.eqb b (type_name t) || has_base b t || has_base_in b more
  end.

(** [b] names a base class of [d] reached through public derivations only. *)
Fixpoint has_public_base (b : string) (d : cpp_type) : bool :=
  match d with
  | Fundamental _ => false
  | Class _ bases => has_public_base_in b bases
  end
with has_public_base_in (b : string) (l : base_list) : bool :=
  match l with
  | NoBases => false
  | Base Public t more =>
      String.eqb b (type_name t) || has_public_base b t || has_public_base_in b more
  | Base _ _ more => has_public_base_in b more
  end.

(** [std::is_base_of<Base, Derived>::value]: both are classes and either
    name the same class or [Base] is a base class of [Derived]; access is
    not looked at. *)
Definition is_base_of (base derived : cpp_type) : bool :=
  is_class base && is_class derived &&
  (String.eqb (type_name base) (type_name derived) || has_base (type_name base) derived).

(** A handler declared with type [handler] (or a reference to it) is a
    match for an exception object of type [thrown] when they are the same
    type or [handler] is a public base class of [thrown]. *)
Definition handler_matches (handler thrown : cpp_type) : bool :=
  String.eqb (type_name handler) (type_name thrown) ||
  (is_class handler && has_public_base (type_name handler) thrown).

(** [std::is_floating_point<T>::value] *)
Definition is_floating_point (t : cpp_type) : bool :=
  match t with
  | Fundamental n =>
      String.eqb n "float" || String.eqb n "double" || String.eqb n "long double"
  | Class _ _ => false
  end.

(** The class heads of the header. *)
Definition std_exception : cpp_type := Class "std::exception" NoBases.

Definition RuntimeException_class : cpp_type :=
  Class "optimal_learning::RuntimeException" (Base Public (std_exception) NoBases).

Definition BoundsException_class (vt : cpp_type) : cpp_type :=
  Class ("optimal_learning::BoundsException<" ++ type_name vt ++ ">")
        (Base Public (std_exception) NoBases).

Definition LowerBoundException_class (vt : cpp_type) : cpp_type :=
  Class ("optimal_learning::LowerBoundException<" ++ type_name vt ++ ">")
        (Base Public (BoundsException_class vt) NoBases).

Definition UpperBoundException_class (vt : cpp_type) : cpp_type :=
  Class ("optimal_learning::UpperBoundException<" ++ type_name vt ++ ">")
        (Base Public (BoundsException_class vt) NoBases).

Definition InvalidValueException_class (vt : cpp_type) : cpp_type :=
  Class ("optimal_learning::InvalidValueException<" ++ type_name vt ++ ">")
        (Base Public (std_exception) NoBases).

Definition SingularMatrixException_class : cpp_type :=
  Class "optimal_learning::SingularMatrixException" (Base Public (std_exception) NoBases).

(** ** Value types

    What the templates use of their parameter [ValueType]: its name (for
    the traits), [std::numeric_limits<ValueType>::max()] and [lowest()],
    and the value [ValueType(0)]. *)
Class ValueType (T : Type) : Type := {
  cpp_type_of : cpp_type;
  numeric_limits_max : T;
  numeric_limits_lowest : T;
  value_zero : T
}.

Arguments cpp_type_of T {_}.
Arguments numeric_limits_max T {_}.
Arguments numeric_limits_lowest T {_}.
Arguments value_zero T {_}.

(** [int] is 32 bits wide. *)
#[export] Instance int_ValueType : ValueType int := {
  cpp_type_of := Fundamental "int";
  numeric_limits_max := 2147483647%Z;
  numeric_limits_lowest := (-2147483648)%Z;
  value_zero := 0%Z
}.

(** [double] is IEEE binary64: max() is DBL_MAX and lowest() is its
    opposite. *)
Definition double := float.

#[export] Instance double_ValueType : ValueType double := {
  cpp_type_of := Fundamental "double";
  numeric_limits_max := 0x1.fffffffffffffp+1023%float;
  numeric_limits_lowest := (-0x1.fffffffffffffp+1023)%float;
  value_zero := 0%float
}.

(** How a payload value is printed into the message.  The printing is
    done by the constructors of gpp_exception.cpp; for [int] it is the
    decimal numeral, for [double] it is left open (the properties below
    hold for every way of printing). *)
Class Printable (T : Type) : Type := {
  to_string : T -> string
}.

(** Modelled from the spec: an [int] is printed as its decimal numeral
    ("5 is not in range [0, 3]" in the specification's example). *)
#[export] Instance int_Printable : Printable int := {
  to_string := int_to_string
}.

(** ** The message tail shared by all constructors *)

(** Modelled from the spec: the constructors that format [message_] are
    defined in gpp_exception.cpp, which is not among the sources; the
    header only declares them.  Every format of the specification (4.3 to
    4.7) ends in ["<custom message> <calling routine> <location>"], and
    the [what()] comments of the header list the same three fields in the
    same order.  (The header's comments put a line break between the
    payload sentence and this tail where the specification's formats have a
    space; the model follows the specification.) *)
Definition debug_info_tail (line_info func_info custom_message : string) : string :=
  custom_message ++ " " ++ func_info ++ " " ++ line_info.

(** ** class RuntimeException : public std::exception *)
Module RuntimeException.

Record t : Type := mk { message_ : string }.

Definition kName : string := "RuntimeException".

(** Modelled from the spec: the constructor is only declared in the
    header.  Specification 4.3: the message is the kind name, a colon, and
    the tail; there is no payload. *)
Definition ctor (line_info func_info custom_message : string) : t :=
  {| message_ := kName ++ ": " ++ debug_info_tail line_info func_info custom_message |}.

Definition what (e : t) : string := message_ e.

End RuntimeException.

(** ** template <typename ValueType> class BoundsException : public std::exception *)
Module BoundsException.

Record t (T : Type) : Type := mk {
  value_ : T;
  min_ : T;
  max_ : T;
  message_ : string
}.

Definition kName : string := "BoundsException".

(** The sentence the message gives about the payload. *)
Definition range_sentence {T : Type} `{Printable T} (value_in min_in max_in : T) : string :=
  to_string value_in ++ " is not in range [" ++ to_string min_in ++ ", "
    ++ to_string max_in ++ "].".

(** Modelled from the spec: the protected constructor is only declared in
    the header (line 243); its body is in gpp_exception.cpp.  Specification
    4.4: the three payload fields are stored as given and the message is
    the kind name, [": <value> is not in range [<min>, <max>]. "] and the
    tail.  The kind name printed is the name the constructor is given: the
    header's constructors pass the [kName] of their class for it (lines
    208, 276 and 304), and the specification (8) has the [what()] of every
    kind contain its own [kName].  After the range sentence the
    specification has a space and the [what()] comment of the header a line
    break: the model keeps the space of the specification, and only
    statements about the exact text at that place depend on it. *)
Definition protected_ctor {T : Type} `{Printable T}
    (name_in line_info func_info custom_message : string)
    (value_in min_in max_in : T) : t T :=
  {| value_ := value_in;
     min_ := min_in;
     max_ := max_in;
     message_ := name_in ++ ": " ++ range_sentence value_in min_in max_in ++ " "
                   ++ debug_info_tail line_info func_info custom_message |}.

(** The public constructor delegates with its own [kName]. *)
Definition ctor {T : Type} `{Printable T}
    (line_info func_info custom_message : string)
    (value_in min_in max_in : T) : t T :=
  protected_ctor kName line_info func_info custom_message value_in min_in max_in.

Definition what {T : Type} (e : t T) : string := message_ e.
Definition value {T : Type} (e : t T) : T := value_ e.
Definition max {T : Type} (e : t T) : T := max_ e.
Definition min {T : Type} (e : t T) : T := min_ e.

End BoundsException.

(** ** template <typename ValueType> class LowerBoundException
       : public BoundsException<ValueType>

    No data member of its own: the object is its base subobject. *)
Module LowerBoundException.

Record t (T : Type) : Type := mk { base : BoundsException.t T }.

Definition kName : string := "LowerBoundException".

Definition ctor {T : Type} `{ValueType T} `{Printable T}
    (line_info func_info custom_message : string) (value_in min_in : T) : t T :=
  mk (BoundsException.protected_ctor kName line_info func_info custom_message
        value_in min_in (numeric_limits_max T)).

(** Inherited members. *)
Definition what {T : Type} (e : t T) : string := BoundsException.what (base e).
Definition value {T : Type} (e : t T) : T := BoundsException.value (base e).
Definition max {T : Type} (e : t T) : T := BoundsException.max (base e).
Definition min {T : Type} (e : t T) : T := BoundsException.min (base e).

End LowerBoundException.

(** ** template <typename ValueType> class UpperBoundException
       : public BoundsException<ValueType> *)
Module UpperBoundException.

Record t (T : Type) : Type := mk { base : BoundsException.t T }.

Definition kName : string := "UpperBoundException".

Definition ctor {T : Type} `{ValueType T} `{Printable T}
    (line_info func_info custom_message : string) (value_in max_in : T) : t T :=
  mk (BoundsException.protected_ctor kName line_info func_info custom_message
        value_in (numeric_limits_lowest T) max_in).

(** Inherited members. *)
Definition what {T : Type} (e : t T) : string := BoundsException.what (base e).
Definition value {T : Type} (e : t T) : T := BoundsException.value (base e).
Definition max {T : Type} (e : t T) : T := BoundsException.max (base e).
Definition min {T : Type} (e : t T) : T := BoundsException.min (base e).

End UpperBoundException.

(** ** template <typename ValueType> class InvalidValueException : public std::exception *)
Module InvalidValueException.

Record t (T : Type) : Type := mk {
  value_ : T;
  truth_ : T;
  tolerance_ : T;
  message_ : string
}.

Definition kName : string := "InvalidValueException".

Definition mismatch_sentence {T : Type} `{Printable T} (value_in truth_in : T) : string :=
  to_string value_in ++ " != " ++ to_string truth_in ++ " (value != truth).".

Definition mismatch_sentence_tolerance {T : Type} `{Printable T}
    (value_in truth_in tolerance_in : T) : string :=
  to_string value_in ++ " != " ++ to_string truth_in ++ " ± " ++ to_string tolerance_in
    ++ " (value != truth ± tolerance).".

(** Modelled from the spec: the constructor without tolerance is only
    declared in the header.  Specification 4.6: value and truth are stored,
    the tolerance is the sentinel zero, and the message is
    ["InvalidValueError: <value> != <truth> (value != truth). "] followed
    by the tail, the kind name being [kName]. *)
Definition ctor {T : Type} `{ValueType T} `{Printable T}
    (line_info func_info custom_message : string) (value_in truth_in : T) : t T :=
  {| value_ := value_in;
     truth_ := truth_in;
     tolerance_ := value_zero T;
     message_ := kName ++ ": " ++ mismatch_sentence value_in truth_in ++ " "
                   ++ debug_info_tail line_info func_info custom_message |}.

(** The default template argument of the constructor that takes a
    tolerance, [std::enable_if<std::is_floating_point<ValueType>::value,
    ValueTypeIn>::type]: the constructor takes part in overload resolution
    only when this type exists, that is when the condition holds.  The
    condition is the type of the evidence the constructor asks for. *)
Definition tolerance_ctor_enabled (T : Type) `{ValueType T} : Prop :=
  is_floating_point (cpp_type_of T) = true.

Arguments tolerance_ctor_enabled T {_}.

(** Modelled from the spec: the body of the constructor with tolerance is
    in gpp_exception.cpp.  Specification 4.6: the three values are stored
    and the message carries ["<value> != <truth> ± <tolerance> (value !=
    truth ± tolerance). "]. *)
Definition ctor_tolerance {T : Type} `{ValueType T} `{Printable T}
    (enabled : tolerance_ctor_enabled T)
    (line_info func_info custom_message : string)
    (value_in truth_in tolerance_in : T) : t T :=
  {| value_ := value_in;
     truth_ := truth_in;
     tolerance_ := tolerance_in;
     message_ := kName ++ ": " ++ mismatch_sentence_tolerance value_in truth_in tolerance_in
                   ++ " " ++ debug_info_tail line_info func_info custom_message |}.

Definition what {T : Type} (e : t T) : string := message_ e.
Definition value {T : Type} (e : t T) : T := value_ e.
Definition truth {T : Type} (e : t T) : T := truth_ e.
Definition tolerance {T : Type} (e : t T) : T := tolerance_ e.

End InvalidValueException.

(** ** The caller's storage

    [double const * matrix_in] points into memory the caller owns.  Memory
    is a map from addresses (counted in doubles) to cells; a pointer is an
    address. *)
Definition memory : Type := Z -> double.

Definition store (m : memory) (a : Z) (v : double) : memory :=
  fun b => if Z.eqb a b then v else m b.

(** The [n] cells from [p] on, in increasing address order: what the
    range [p, p + n) reads. *)
Definition read_range (m : memory) (p : Z) (n : nat) : list double :=
  map (fun k => m (p + Z.of_nat k)%Z) (seq 0 n).

(** ** class SingularMatrixException : public std::exception *)
Module SingularMatrixException.

Record t : Type := mk {
  num_rows_ : int;
  num_cols_ : int;
  matrix_ : list double;   (* std::vector<double>, held by value *)
  message_ : string
}.

Definition kName : string := "SingularMatrixException".

Definition size_sentence (num_rows_in num_cols_in : int) : string :=
  int_to_string num_rows_in ++ " x " ++ int_to_string num_cols_in ++ " matrix is singular.".

(** Modelled from the spec: the constructor is only declared in the
    header.  Specification 3 and 4.7: it copies the
    [num_rows * num_cols] entries at [matrix_in] into the vector it owns,
    stores the two dimensions, and formats
    ["<rows> x <cols> matrix is singular. "] followed by the tail.  (A
    negative product reads nothing; in C++ such a call has no defined
    behaviour.) *)
Definition ctor (m : memory) (line_info func_info custom_message : string)
    (matrix_in : Z) (num_rows_in num_cols_in : int) : t :=
  {| num_rows_ := num_rows_in;
     num_cols_ := num_cols_in;
     matrix_ := read_range m matrix_in (Z.to_nat (num_rows_in * num_cols_in));
     message_ := kName ++ ": " ++ size_sentence num_rows_in num_cols_in ++ " "
                   ++ debug_info_tail line_info func_info custom_message |}.

Definition what (e : t) : string := message_ e.
Definition num_rows (e : t) : int := num_rows_ e.
Definition num_cols (e : t) : int := num_cols_ e.
Definition matrix (e : t) : list double := matrix_ e.

End SingularMatrixException.

(** ** Exception objects in flight

    The object a [throw] creates has one of the six classes of the header
    as its dynamic type. *)
Inductive exn (T : Type) : Type :=
| ExRuntime (e : RuntimeException.t)
| ExBounds (e : BoundsException.t T)
| ExLowerBound (e : LowerBoundException.t T)
| ExUpperBound (e : UpperBoundException.t T)
| ExInvalidValue (e : InvalidValueException.t T)
| ExSingularMatrix (e : SingularMatrixException.t).

Arguments ExRuntime {T} e.
Arguments ExSingularMatrix {T} e.

Inductive kind : Type :=
| KRuntime | KBounds | KLowerBound | KUpperBound | KInvalidValue | KSingularMatrix.

Definition kind_eqb (a b : kind) : bool :=
  match a, b with
  | KRuntime, KRuntime | KBounds, KBounds | KLowerBound, KLowerBound
  | KUpperBound, KUpperBound | KInvalidValue, KInvalidValue
  | KSingularMatrix, KSingularMatrix => true
  | _, _ => false
  end.

Definition kind_of {T : Type} (x : exn T) : kind :=
  match x with
  | ExRuntime _ => KRuntime
  | ExBounds _ => KBounds
  | ExLowerBound _ => KLowerBound
  | ExUpperBound _ => KUpperBound
  | ExInvalidValue _ => KInvalidValue
  | ExSingularMatrix _ => KSingularMatrix
  end.

(** The [kName] member of each class. *)
Definition kName (k : kind) : string :=
  match k with
  | KRuntime => RuntimeException.kName
  | KBounds => BoundsException.kName
  | KLowerBound => LowerBoundException.kName
  | KUpperBound => UpperBoundException.kName
  | KInvalidValue => InvalidValueException.kName
  | KSingularMatrix => SingularMatrixException.kName
  end.

(** The virtual [what()], called through a reference to [std::exception]. *)
Definition what_of {T : Type} (x : exn T) : string :=
  match x with
  | ExRuntime e => RuntimeException.what e
  | ExBounds e => BoundsException.what e
  | ExLowerBound e => LowerBoundException.what e
  | ExUpperBound e => UpperBoundException.what e
  | ExInvalidValue e => InvalidValueException.what e
  | ExSingularMatrix e => SingularMatrixException.what e
  end.

Definition class_of_kind (vt : cpp_type) (k : kind) : cpp_type :=
  match k with
  | KRuntime => RuntimeException_class
  | KBounds => BoundsException_class vt
  | KLowerBound => LowerBoundException_class vt
  | KUpperBound => UpperBoundException_class vt
  | KInvalidValue => InvalidValueException_class vt
  | KSingularMatrix => SingularMatrixException_class
  end.

Definition dynamic_type {T : Type} `{ValueType T} (x : exn T) : cpp_type :=
  class_of_kind (cpp_type_of T) (kind_of x).

(** ** Constructor calls, one shape for all classes

    What follows the two location strings and the custom message in a
    constructor call. *)
Inductive ctor_args (T : Type) `{ValueType T} : Type :=
| RuntimeArgs
| BoundsArgs (value_in min_in max_in : T)
| LowerBoundArgs (value_in min_in : T)
| UpperBoundArgs (value_in max_in : T)
| InvalidValueArgs (value_in truth_in : T)
| InvalidValueToleranceArgs (enabled : InvalidValueException.tolerance_ctor_enabled T)
    (value_in truth_in tolerance_in : T)
| SingularMatrixArgs (m : memory) (matrix_in : Z) (num_rows_in num_cols_in : int).

Arguments ctor_args T {_}.
Arguments RuntimeArgs {T _}.
Arguments SingularMatrixArgs {T _} m matrix_in num_rows_in num_cols_in.

Definition construct {T : Type} `{ValueType T} `{Printable T}
    (line_info func_info custom_message : string) (a : ctor_args T) : exn T :=
  match a with
  | RuntimeArgs =>
      ExRuntime (RuntimeException.ctor line_info func_info custom_message)
  | BoundsArgs v lo hi =>
      ExBounds (BoundsException.ctor line_info func_info custom_message v lo hi)
  | LowerBoundArgs v lo =>
      ExLowerBound (LowerBoundException.ctor line_info func_info custom_message v lo)
  | UpperBoundArgs v hi =>
      ExUpperBound (UpperBoundException.ctor line_info func_info custom_message v hi)
  | InvalidValueArgs v tr =>
      ExInvalidValue (InvalidValueException.ctor line_info func_info custom_message v tr)
  | InvalidValueToleranceArgs en v tr tol =>
      ExInvalidValue
        (InvalidValueException.ctor_tolerance en line_info func_info custom_message v tr tol)
  | SingularMatrixArgs m p r c =>
      ExSingularMatrix
        (SingularMatrixException.ctor m line_info func_info custom_message p r c)
  end.

(** The condition-specific sentence the formats of the specification (4.4
    to 4.7) put between the kind name and the custom message, written out
    from the specification and not from the constructors above.  Format
    4.3 of RuntimeError has no such sentence. *)
Definition spec_description {T : Type} `{ValueType T} `{Printable T}
    (a : ctor_args T) : option string :=
  match a with
  | RuntimeArgs => None
  | BoundsArgs v lo hi =>
      Some (to_string v ++ " is not in range [" ++ to_string lo ++ ", "
              ++ to_string hi ++ "].")
  | LowerBoundArgs v lo =>
      Some (to_string v ++ " is not in range [" ++ to_string lo ++ ", "
              ++ to_string (numeric_limits_max T) ++ "].")
  | UpperBoundArgs v hi =>
      Some (to_string v ++ " is not in range [" ++ to_string (numeric_limits_lowest T)
              ++ ", " ++ to_string hi ++ "].")
  | InvalidValueArgs v tr =>
      Some (to_string v ++ " != " ++ to_string tr ++ " (value != truth).")
  | InvalidValueToleranceArgs _ v tr tol =>
      Some (to_string v ++ " != " ++ to_string tr ++ " ± " ++ to_string tol
              ++ " (value != truth ± tolerance).")
  | SingularMatrixArgs _ _ r c =>
      Some (int_to_string r ++ " x " ++ int_to_string c ++ " matrix is singular.")
  end.

(** Format 4.4 of the specification, with the kind name it starts with
    as a parameter. *)
Definition BoundsError_format {T : Type} `{Printable T}
    (kind_name line_info func_info custom_message : string) (value min max : T) : string :=
  kind_name ++ ": " ++ to_string value ++ " is not in range [" ++ to_string min ++ ", "
    ++ to_string max ++ "]. " ++ custom_message ++ " " ++ func_info ++ " " ++ line_info.

(** [c] occurs in [s]. *)
Fixpoint has_char (c : ascii) (s : string) : bool :=
  match s with
  | EmptyString => false
  | String a s' => Ascii.eqb c a || has_char c s'
  end.

(** ** The raise mechanism, with exceptions enabled *)

(** The [static_assert] of [ThrowException]: instantiating the template
    with [ExceptionType] is well formed only if this holds. *)
Definition ThrowException_static_assert (ExceptionType : cpp_type) : bool :=
  is_base_of std_exception ExceptionType.

Section Unwind.

Context {T : Type} `{VT : ValueType T}.

(** A computation either returns to where it was called from or is
    unwinding the stack with an exception object. *)
Inductive outcome (A : Type) : Type :=
| Returned (a : A)
| Unwinding (x : exn T).

Arguments Returned {A} a.
Arguments Unwinding {A} x.

Definition bind {A B : Type} (c : outcome A) (k : A -> outcome B) : outcome B :=
  match c with
  | Returned a => k a
  | Unwinding x => Unwinding x
  end.

(** A type [ThrowException] can be instantiated with: a class of the
    table that passes the static assertion, with the exception object a
    [throw] of a value of that static type creates (a copy of it). *)
Class Throwable (E : Type) : Type := {
  static_type : cpp_type;
  static_assert_holds : ThrowException_static_assert static_type = true;
  exception_object : E -> exn T
}.

Lemma static_assert_of_kind (k : kind) :
  ThrowException_static_assert (class_of_kind (cpp_type_of T) k) = true.
Proof. destruct k; reflexivity. Qed.

#[export] Instance RuntimeException_Throwable : Throwable RuntimeException.t := {
  static_type := class_of_kind (cpp_type_of T) KRuntime;
  static_assert_holds := static_assert_of_kind KRuntime;
  exception_object := ExRuntime
}.

#[export] Instance BoundsException_Throwable : Throwable (BoundsException.t T) := {
  static_type := class_of_kind (cpp_type_of T) KBounds;
  static_assert_holds := static_assert_of_kind KBounds;
  exception_object := @ExBounds T
}.

#[export] Instance LowerBoundException_Throwable : Throwable (LowerBoundException.t T) := {
  static_type := class_of_kind (cpp_type_of T) KLowerBound;
  static_assert_holds := static_assert_of_kind KLowerBound;
  exception_object := @ExLowerBound T
}.

#[export] Instance UpperBoundException_Throwable : Throwable (UpperBoundException.t T) := {
  static_type := class_of_kind (cpp_type_of T) KUpperBound;
  static_assert_holds := static_assert_of_kind KUpperBound;
  exception_object := @ExUpperBound T
}.

#[export] Instance InvalidValueException_Throwable : Throwable (InvalidValueException.t T) := {
  static_type := class_of_kind (cpp_type_of T) KInvalidValue;
  static_assert_holds := static_assert_of_kind KInvalidValue;
  exception_object := @ExInvalidValue T
}.

#[export] Instance SingularMatrixException_Throwable : Throwable SingularMatrixException.t := {
  static_type := class_of_kind (cpp_type_of T) KSingularMatrix;
  static_assert_holds := static_assert_of_kind KSingularMatrix;
  exception_object := ExSingularMatrix
}.

(** [throw except;] *)
Definition ThrowException {E : Type} `{Throwable E} {A : Type} (except : E) : outcome A :=
  Unwinding (exception_object except).

(** [OL_THROW_EXCEPTION(ExceptionType, Args...)] used at [line] of [file]
    inside [current_function]: [with_args] is the constructor of
    [ExceptionType] with [Args...] already in place after the two strings
    the macro supplies. *)
Definition OL_THROW_EXCEPTION {E : Type} `{Throwable E} {A : Type}
    (file : string) (line : Z) (current_function : string)
    (with_args : string -> string -> E) : outcome A :=
  ThrowException (with_args (OL_STRINGIFY_FILE_AND_LINE file line) current_function).

(** *** Handlers

    What a handler declared for a class sees of an exception object: the
    object itself, or its base subobject of that class; nothing when the
    handler is no match. *)
Definition catch_RuntimeException (x : exn T) : option RuntimeException.t :=
  match x with
  | ExRuntime e => Some e
  | _ => None
  end.

Definition catch_BoundsException (x : exn T) : option (BoundsException.t T) :=
  match x with
  | ExBounds e => Some e
  | ExLowerBound e => Some (LowerBoundException.base e)
  | ExUpperBound e => Some (UpperBoundException.base e)
  | _ => None
  end.

Definition catch_LowerBoundException (x : exn T) : option (LowerBoundException.t T) :=
  match x with
  | ExLowerBound e => Some e
  | _ => None
  end.

Definition catch_UpperBoundException (x : exn T) : option (UpperBoundException.t T) :=
  match x with
  | ExUpperBound e => Some e
  | _ => None
  end.

Definition catch_InvalidValueException (x : exn T) : option (InvalidValueException.t T) :=
  match x with
  | ExInvalidValue e => Some e
  | _ => None
  end.

Definition catch_SingularMatrixException (x : exn T) : option SingularMatrixException.t :=
  match x with
  | ExSingularMatrix e => Some e
  | _ => None
  end.

(** A handler for [std::exception] sees every object of the six classes,
    through the virtual [what()]. *)
Definition catch_std_exception (x : exn T) : option (exn T) := Some x.

(** [try { body } catch (const H & h) { handler }] *)
Definition try_catch {H A : Type} (catch_as : exn T -> option H)
    (body : outcome A) (handler : H -> outcome A) : outcome A :=
  match body with
  | Returned a => Returned a
  | Unwinding x =>
      match catch_as x with
      | Some h => handler h
      | None => Unwinding x
      end
  end.

End Unwind.

Arguments outcome T A : clear implicits.
Arguments Throwable T E : clear implicits.
Arguments Returned {T A} a.
Arguments Unwinding {T A} x.

Notation "x <- c ;; k" := (bind c (fun x => k))
  (at level 61, c at next level, right associativity).

(** ** The raise mechanism, with OL_NO_EXCEPTIONS defined

    The header then only declares
    [OL_NORETURN void ThrowException(const std::exception& exception);]
    and the user of the library defines it.  A call of a function declared
    noreturn does not come back; if the function returns all the same,
    the behaviour of the program is undefined. *)

(** How a call of the user's definition ends. *)
Inductive call_end : Type := NeverReturns | ReturnsToCaller.

(** How a run ends. *)
Inductive run_end (A : Type) : Type :=
| Finished (a : A)        (* control is back at the caller *)
| Stopped                 (* control never came back *)
| UndefinedBehaviour.

Arguments Stopped {A}.
Arguments UndefinedBehaviour {A}.

Section NoExceptions.

Context {T : Type}.

(** The user's definition of [ThrowException]. *)
Variable user_ThrowException : exn T -> call_end.

(** The calls of the user's function a run makes, each with the object
    the reference it was given refers to. *)
Inductive event : Type :=
| CallUserThrowException (x : exn T).

Record run (A : Type) : Type := mkRun {
  events : list event;
  result : run_end A
}.

Definition run_ret {A : Type} (a : A) : run A := mkRun [] (Finished a).

Definition run_bind {A B : Type} (c : run A) (k : A -> run B) : run B :=
  match result c with
  | Finished a => mkRun (events c ++ events (k a)) (result (k a))
  | Stopped => mkRun (events c) Stopped
  | UndefinedBehaviour => mkRun (events c) UndefinedBehaviour
  end.

Definition ThrowException_no_exceptions {A : Type} (x : exn T) : run A :=
  mkRun [CallUserThrowException x]
        match user_ThrowException x with
        | NeverReturns => Stopped
        | ReturnsToCaller => UndefinedBehaviour
        end.

End NoExceptions.

Arguments run T A : clear implicits.

(** ** Special member functions

    What the class bodies say about default construction and copy
    assignment, and what follows for copies, moves and assignments. *)
Inductive member_declaration : Type :=
| DefaultCtorDeleted        (* TypeName() = delete; *)
| CopyAssignmentDeleted.    (* void operator=(const TypeName&) = delete; *)

Definition declares_default_ctor_deleted (d : member_declaration) : bool :=
  match d with
  | DefaultCtorDeleted => true
  | CopyAssignmentDeleted => false
  end.

Definition declares_copy_assignment_deleted (d : member_declaration) : bool :=
  match d with
  | DefaultCtorDeleted => false
  | CopyAssignmentDeleted => true
  end.

(** What a program can do to an exception object it holds. *)
Inductive operation (T : Type) : Type :=
| CallConstMember               (* what() or an accessor; there is no other member *)
| CopyFrom                      (* K y(x); or ThrowException(x): x is copied *)
| Assign (source : exn T)       (* x = source; or x = std::move(source); *)
| MoveFrom (after : exn T).      (* K y(std::move(x)); a move constructor leaves x
                                   in a state the standard does not fix: after *)

Arguments CallConstMember {T}.
Arguments CopyFrom {T}.

(** Copy construction: the implicit copy constructor copies the base and
    every member. *)
Definition copy_construct {T : Type} (x : exn T) : exn T := x.

(** Copy construction of a BoundsException from an object of a class
    derived from it: the copy is the base subobject. *)
Definition slice {T : Type} (x : exn T) : option (exn T) :=
  match x with
  | ExLowerBound e => Some (ExBounds (LowerBoundException.base e))
  | ExUpperBound e => Some (ExBounds (UpperBoundException.base e))
  | _ => None
  end.

Section SpecialMembers.

(** [OL_DISALLOW_DEFAULT_AND_ASSIGN(TypeName)] is defined in gpp_common.hpp,
    which is not among the sources: the declarations it expands to are a
    parameter of what follows. *)
Variable OL_DISALLOW_DEFAULT_AND_ASSIGN : list member_declaration.

(** The declarations of special members in each class body:
    [RuntimeException() = delete;] in RuntimeException, the macro in the
    other five. *)
Definition declared_members (k : kind) : list member_declaration :=
  match k with
  | KRuntime => [DefaultCtorDeleted]
  | KBounds => OL_DISALLOW_DEFAULT_AND_ASSIGN
  | KLowerBound => OL_DISALLOW_DEFAULT_AND_ASSIGN
  | KUpperBound => OL_DISALLOW_DEFAULT_AND_ASSIGN
  | KInvalidValue => OL_DISALLOW_DEFAULT_AND_ASSIGN
  | KSingularMatrix => OL_DISALLOW_DEFAULT_AND_ASSIGN
  end.

(** [K x;] is well formed. *)
Definition default_constructible (k : kind) : bool :=
  negb (existsb declares_default_ctor_deleted (declared_members k)).

(** [x = y;] is well formed for two objects of class [k]: the copy
    assignment operator is the implicitly defined one unless the class
    declares it deleted. *)
Definition copy_assignable (k : kind) : bool :=
  negb (existsb declares_copy_assignment_deleted (declared_members k)).

(** The class has an implicit move constructor and move assignment
    operator: only when it declares no copy assignment operator itself
    (nor a copy constructor, a move operation or a destructor, which no
    class of the header declares).  Without them a move is a copy. *)
Definition implicitly_movable (k : kind) : bool :=
  negb (existsb declares_copy_assignment_deleted (declared_members k)).

(** The object after the operation; [None] when the operation is ill
    formed (or, for a move, when [after] is no state of the object's
    class). *)
Definition apply_operation {T : Type} (target : exn T) (op : operation T) : option (exn T) :=
  match op with
  | CallConstMember => Some target
  | CopyFrom => Some target
  | Assign source =>
      if kind_eqb (kind_of source) (kind_of target) && copy_assignable (kind_of target)
      then Some source
      else None
  | MoveFrom after =>
      if implicitly_movable (kind_of target)
      then if kind_eqb (kind_of after) (kind_of target) then Some after else None
      else Some target
  end.

Fixpoint lifetime {T : Type} (x : exn T) (ops : list (operation T)) : option (exn T) :=
  match ops with
  | [] => Some x
  | op :: rest =>
      match apply_operation x op with
      | Some x' => lifetime x' rest
      | None => None
      end
  end.

(** The error values a program can come to hold: a default constructed
    object where the class allows it, what a constructor call with a
    payload builds, a copy or a slicing copy of a value it holds, and what
    an assignment or a move leaves in an object that held such a value. *)
Inductive obtainable {T : Type} `{ValueType T} `{Printable T} : exn T -> Prop :=
| obtained_by_default (x : exn T) :
    default_constructible (kind_of x) = true -> obtainable x
| obtained_by_ctor (line_info func_info custom_message : string) (a : ctor_args T) :
    obtainable (construct line_info func_info custom_message a)
| obtained_by_copy (x : exn T) :
    obtainable x -> obtainable (copy_construct x)
| obtained_by_slicing_copy (x y : exn T) :
    obtainable x -> slice x = Some y -> obtainable y
| obtained_by_assignment (x source y : exn T) :
    obtainable x -> obtainable source ->
    apply_operation x (Assign source) = Some y -> obtainable y
| obtained_by_move (x after y : exn T) :
    obtainable x -> apply_operation x (MoveFrom after) = Some y -> obtainable y.

End SpecialMembers.

(** * Properties *)

(** ** Strings *)

Lemma append_empty_r (s : string) : s ++ "" = s.
Proof. induction s as [|a s IH]; simpl; [reflexivity | now rewrite IH]. Qed.

Lemma append_assoc (a b c : string) : (a ++ b) ++ c = a ++ b ++ c.
Proof. induction a as [|x a IH]; simpl; [reflexivity | now rewrite IH]. Qed.

Lemma drop_prefix_sound (p : string) :
  forall s rest, drop_prefix p s = Some rest -> s = p ++ rest.
Proof.
  induction p as [|a p IH]; intros s rest Hd.
  - simpl in Hd. destruct s; inversion Hd; reflexivity.
  - destruct s as [|b s]; simpl in Hd; [discriminate|].
    destruct (Ascii.eqb a b) eqn:Hab; [|discriminate].
    apply Ascii.eqb_eq in Hab. subst b. simpl. f_equal. now apply IH.
Qed.

Lemma after_first_sound (p : string) :
  forall s rest, after_first p s = Some rest -> exists pre, s = pre ++ p ++ rest.
Proof.
  intros s. induction s as [|b s IH]; intros rest Ha.
  - simpl in Ha. destruct (drop_prefix p "") eqn:Hd; [|discriminate].
    inversion Ha; subst. exists "". simpl. now apply drop_prefix_sound.
  - simpl in Ha. destruct (drop_prefix p (String b s)) eqn:Hd.
    + inversion Ha; subst. exists "". simpl. now apply drop_prefix_sound.
    + destruct (IH _ Ha) as [pre Hpre]. exists (String b pre). simpl. now rewrite Hpre.
Qed.

(** The executable search is sound for [contains_in_order]. *)
Lemma occurs_in_order_sound (parts : list string) :
  forall s, occurs_in_order parts s = true -> contains_in_order parts s.
Proof.
  induction parts as [|p ps IH]; intros s Ho; simpl; [exact I|].
  simpl in Ho. destruct (after_first p s) as [rest|] eqn:Ha; [|discriminate].
  destruct (after_first_sound _ _ Ha) as [pre Hpre].
  exists pre, rest. split; [assumption | now apply IH].
Qed.

Lemma contains_in_order_cons (p pre rest : string) (ps : list string) :
  contains_in_order ps rest -> contains_in_order (p :: ps) (pre ++ p ++ rest).
Proof. intros Hr. exists pre, rest. split; [reflexivity | assumption]. Qed.

Lemma contains_in_order_substring (parts : list string) (p s : string) :
  In p parts -> contains_in_order parts s -> substring_of p s.
Proof.
  revert s. induction parts as [|q qs IH]; intros s Hin Hc; [contradiction|].
  destruct Hc as (pre & rest & Hs & Hrest). destruct Hin as [Heq | Hin].
  - subst q. now exists pre, rest.
  - destruct (IH _ Hin Hrest) as (pre' & post' & Hr). subst rest s.
    exists (pre ++ q ++ pre'), post'. now rewrite !append_assoc.
Qed.

(** ** The location token *)

(** The header's own example: line 893 of gpp_foo.cpp. *)
Example OL_STRINGIFY_FILE_AND_LINE_example :
  OL_STRINGIFY_FILE_AND_LINE "gpp_foo.cpp" 893 = "(gpp_foo.cpp: 893)".
Proof. reflexivity. Qed.

(** ** Message layout *)

(** A message made of a name, a sentence and the tail has the five fields
    one after the other. *)
Lemma message_layout (name sentence line_info func_info custom_message : string) :
  contains_in_order [name; sentence; custom_message; func_info; line_info]
    (name ++ ": " ++ sentence ++ " " ++ debug_info_tail line_info func_info custom_message).
Proof.
  unfold debug_info_tail.
  apply (contains_in_order_cons name "").
  apply (contains_in_order_cons sentence ": ").
  apply (contains_in_order_cons custom_message " ").
  apply (contains_in_order_cons func_info " ").
  exists " ", "". split; [now rewrite append_empty_r | exact I].
Qed.

(** The full text of each message. *)
Lemma RuntimeException_what (line_info func_info custom_message : string) :
  RuntimeException.what (RuntimeException.ctor line_info func_info custom_message)
  = "RuntimeException: " ++ custom_message ++ " " ++ func_info ++ " " ++ line_info.
Proof. reflexivity. Qed.

Lemma protected_ctor_what {T : Type} `{Printable T}
    (name_in line_info func_info custom_message : string) (v lo hi : T) :
  BoundsException.what
    (BoundsException.protected_ctor name_in line_info func_info custom_message v lo hi)
  = name_in ++ ": " ++ to_string v ++ " is not in range [" ++ to_string lo ++ ", "
      ++ to_string hi ++ "]. " ++ custom_message ++ " " ++ func_info ++ " " ++ line_info.
Proof.
  unfold BoundsException.what, BoundsException.protected_ctor,
    BoundsException.range_sentence, debug_info_tail.
  cbn [BoundsException.message_]. rewrite !append_assoc. reflexivity.
Qed.

Lemma message_layout_four (name line_info func_info custom_message : string) :
  contains_in_order [name; custom_message; func_info; line_info]
    (name ++ ": " ++ debug_info_tail line_info func_info custom_message).
Proof.
  unfold debug_info_tail.
  apply (contains_in_order_cons name "").
  apply (contains_in_order_cons custom_message ": ").
  apply (contains_in_order_cons func_info " ").
  exists " ", "". split; [now rewrite append_empty_r | exact I].
Qed.

Lemma append_literal_nonempty (a b : string) (c : ascii) : a ++ String c b <> "".
Proof. destruct a; discriminate. Qed.

(** C1, as amended: for the five classes with a payload and whatever
    the constructor is given, [what()] has, one after the other, the
    [kName] of the class, the sentence of the specification about the
    payload (which is never empty), the custom message as given, the name
    of the calling routine and the file and line token.  RuntimeException
    has no payload and no such sentence: its [what()] is its [kName], a
    colon and a space, and then the custom message, the calling routine and
    the token, separated by single spaces. *)
Theorem what_contains_fields_in_order :
  forall (T : Type) (VT : ValueType T) (PT : Printable T)
         (line_info func_info custom_message : string) (a : ctor_args T),
    match spec_description a with
    | Some sentence =>
        sentence <> ""
        /\ contains_in_order
             [kName (kind_of (construct line_info func_info custom_message a));
              sentence; custom_message; func_info; line_info]
             (what_of (construct line_info func_info custom_message a))
    | None =>
        kind_of (construct line_info func_info custom_message a) = KRuntime
        /\ what_of (construct line_info func_info custom_message a)
           = "RuntimeException: " ++ custom_message ++ " " ++ func_info ++ " " ++ line_info
        /\ contains_in_order
             [kName KRuntime; custom_message; func_info; line_info]
             (what_of (construct line_info func_info custom_message a))
    end.
Proof.
  intros T VT PT line_info func_info custom_message a.
  destruct a; cbn [spec_description construct kind_of kName what_of].
  - split; [reflexivity|]. split; [reflexivity|]. apply message_layout_four.
  - split; [apply append_literal_nonempty | apply message_layout].
  - split; [apply append_literal_nonempty | apply message_layout].
  - split; [apply append_literal_nonempty | apply message_layout].
  - split; [apply append_literal_nonempty | apply message_layout].
  - split; [apply append_literal_nonempty | apply message_layout].
  - split; [apply append_literal_nonempty | apply message_layout].
Qed.

(** Both halves of the testable property of the specification, for all six
    classes: the [kName] literal and the custom message are substrings of
    [what()]. *)
Lemma what_contains_kName_and_message :
  forall (T : Type) (VT : ValueType T) (PT : Printable T)
         (line_info func_info custom_message : string) (a : ctor_args T),
    substring_of (kName (kind_of (construct line_info func_info custom_message a)))
                 (what_of (construct line_info func_info custom_message a))
    /\ substring_of custom_message
                 (what_of (construct line_info func_info custom_message a)).
Proof.
  intros T VT PT line_info func_info custom_message a.
  destruct a; cbn [construct kind_of kName what_of]; split;
    (eapply contains_in_order_substring;
     [| first [apply message_layout_four | apply message_layout]]; simpl; auto).
Qed.

(** Every occurrence of [c] in a text that has it once splits the text
    the same way. *)
Lemma has_char_middle (c : ascii) (x y : string) : has_char c (x ++ String c y) = true.
Proof.
  induction x as [|a x IH]; simpl.
  - now rewrite Ascii.eqb_refl.
  - rewrite IH. apply orb_true_r.
Qed.

Lemma split_at_only_char (c : ascii) (x' y' : string) :
  has_char c x' = false -> has_char c y' = false ->
  forall x y : string, x ++ String c y = x' ++ String c y' -> x = x' /\ y = y'.
Proof.
  intros Hx' Hy'. revert Hx'.
  induction x' as [|a' x' IH]; intros Hx' [|a x] y Heq; simpl in Heq.
  - inversion Heq. now split.
  - inversion Heq as [[Ha Hrest]]. rewrite <- Hrest, has_char_middle in Hy'.
    discriminate Hy'.
  - inversion Heq as [[Ha Hrest]]. simpl in Hx'. rewrite Ha, Ascii.eqb_refl in Hx'.
    discriminate Hx'.
  - inversion Heq as [[Ha Hrest]]. simpl in Hx'. apply orb_false_iff in Hx'.
    destruct (IH (proj2 Hx') x y Hrest) as [-> ->]. now split.
Qed.

(** C1, as stated, fails for RuntimeException: between its [kName] and
    the custom message the text has only the separator, so whatever is
    found there in the place of a description is a piece of ": ". *)
Lemma RuntimeException_message_has_no_description :
  RuntimeException.what
    (RuntimeException.ctor "(gpp_foo.cpp: 893)" "Foo" "Out of memory.")
  = "RuntimeException: Out of memory. Foo (gpp_foo.cpp: 893)"
  /\ forall d : string,
       contains_in_order
         [RuntimeException.kName; d; "Out of memory."; "Foo"; "(gpp_foo.cpp: 893)"]
         (RuntimeException.what
            (RuntimeException.ctor "(gpp_foo.cpp: 893)" "Foo" "Out of memory."))
       -> substring_of d ": ".
Proof.
  split; [reflexivity|].
  intros d (pre & r1 & Hs & p1 & r2 & Hr1 & p2 & r3 & Hr2 & _).
  change (RuntimeException.what
            (RuntimeException.ctor "(gpp_foo.cpp: 893)" "Foo" "Out of memory."))
    with ("" ++ String "R" "untimeException: Out of memory. Foo (gpp_foo.cpp: 893)") in Hs.
  change (pre ++ RuntimeException.kName ++ r1)
    with (pre ++ String "R" ("untimeException" ++ r1)) in Hs.
  symmetry in Hs. apply split_at_only_char in Hs; [| reflexivity | reflexivity].
  destruct Hs as [_ Hr]. simpl in Hr. inversion Hr as [Hr1']. clear Hr.
  subst r2. rewrite Hr1 in Hr1'.
  assert (Hsplit : (p1 ++ d ++ p2) ++ String "O" ("ut of memory." ++ r3)
                   = ": " ++ String "O" "ut of memory. Foo (gpp_foo.cpp: 893)").
  { rewrite !append_assoc. exact Hr1'. }
  apply split_at_only_char in Hsplit; [| reflexivity | reflexivity].
  destruct Hsplit as [Hd _]. exists p1, p2. now rewrite Hd.
Qed.

(** ** BoundsException *)


(** The example of the specification: value 5 outside [0, 3]. *)
Example BoundsException_5_0_3 :
  BoundsException.what
    (BoundsException.ctor "(gpp_foo.cpp: 893)" "Foo" "Invalid length scale." 5%Z 0%Z 3%Z)
  = "BoundsException: 5 is not in range [0, 3]. Invalid length scale. Foo (gpp_foo.cpp: 893)".
Proof. reflexivity. Qed.

Example BoundsException_5_0_3_sentence :
  occurs_in_order ["5 is not in range [0, 3]"]
    (BoundsException.what
       (BoundsException.ctor "(gpp_foo.cpp: 893)" "Foo" "Invalid length scale." 5%Z 0%Z 3%Z))
  = true.
Proof. reflexivity. Qed.

(** Bounds in the wrong order are stored and printed as they come. *)
Example BoundsException_min_above_max :
  let e := BoundsException.ctor "(gpp_foo.cpp: 893)" "Foo" "m" 5%Z 3%Z 0%Z in
  BoundsException.min e = 3%Z /\ BoundsException.max e = 0%Z
  /\ BoundsException.what e = "BoundsException: 5 is not in range [3, 0]. m Foo (gpp_foo.cpp: 893)".
Proof. repeat split. Qed.

(** ** LowerBoundException and UpperBoundException *)

(** C2: both constructors hand their arguments to the protected
    constructor of BoundsException, with [numeric_limits<T>::max()] as max
    (LowerBoundException) or [numeric_limits<T>::lowest()] as min
    (UpperBoundException), and format nothing themselves; the payload of
    the BoundsException they build is the given value and bound and that
    sentinel; and their message has the format of BoundsException's own
    message for these three values (format 4.4 after a kind name). *)
Theorem bound_exceptions_delegate_to_BoundsException :
  forall (T : Type) (VT : ValueType T) (PT : Printable T)
         (line_info func_info custom_message : string) (value_in bound_in : T),
    (LowerBoundException.base
       (LowerBoundException.ctor line_info func_info custom_message value_in bound_in)
     = BoundsException.protected_ctor LowerBoundException.kName
         line_info func_info custom_message value_in bound_in (numeric_limits_max T)
     /\ BoundsException.value
          (LowerBoundException.base
             (LowerBoundException.ctor line_info func_info custom_message value_in bound_in))
        = value_in
     /\ BoundsException.min
          (LowerBoundException.base
             (LowerBoundException.ctor line_info func_info custom_message value_in bound_in))
        = bound_in
     /\ BoundsException.max
          (LowerBoundException.base
             (LowerBoundException.ctor line_info func_info custom_message value_in bound_in))
        = numeric_limits_max T
     /\ exists kind_name kind_name' : string,
          LowerBoundException.what
            (LowerBoundException.ctor line_info func_info custom_message value_in bound_in)
          = BoundsError_format kind_name line_info func_info custom_message
              value_in bound_in (numeric_limits_max T)
          /\ BoundsException.what
               (BoundsException.ctor line_info func_info custom_message
                  value_in bound_in (numeric_limits_max T))
             = BoundsError_format kind_name' line_info func_info custom_message
                 value_in bound_in (numeric_limits_max T))
    /\
    (UpperBoundException.base
       (UpperBoundException.ctor line_info func_info custom_message value_in bound_in)
     = BoundsException.protected_ctor UpperBoundException.kName
         line_info func_info custom_message value_in (numeric_limits_lowest T) bound_in
     /\ BoundsException.value
          (UpperBoundException.base
             (UpperBoundException.ctor line_info func_info custom_message value_in bound_in))
        = value_in
     /\ BoundsException.min
          (UpperBoundException.base
             (UpperBoundException.ctor line_info func_info custom_message value_in bound_in))
        = numeric_limits_lowest T
     /\ BoundsException.max
          (UpperBoundException.base
             (UpperBoundException.ctor line_info func_info custom_message value_in bound_in))
        = bound_in
     /\ exists kind_name kind_name' : string,
          UpperBoundException.what
            (UpperBoundException.ctor line_info func_info custom_message value_in bound_in)
          = BoundsError_format kind_name line_info func_info custom_message
              value_in (numeric_limits_lowest T) bound_in
          /\ BoundsException.what
               (BoundsException.ctor line_info func_info custom_message
                  value_in (numeric_limits_lowest T) bound_in)
             = BoundsError_format kind_name' line_info func_info custom_message
                 value_in (numeric_limits_lowest T) bound_in).
Proof.
  intros. split.
  - repeat split.
    exists LowerBoundException.kName, BoundsException.kName.
    unfold LowerBoundException.what, LowerBoundException.ctor, BoundsException.ctor,
      BoundsError_format; cbn [LowerBoundException.base].
    rewrite !protected_ctor_what. split; reflexivity.
  - repeat split.
    exists UpperBoundException.kName, BoundsException.kName.
    unfold UpperBoundException.what, UpperBoundException.ctor, BoundsException.ctor,
      BoundsError_format; cbn [UpperBoundException.base].
    rewrite !protected_ctor_what. split; reflexivity.
Qed.

(** The examples of the specification. *)
Example LowerBoundException_int_minus1_0 :
  let e := LowerBoundException.ctor "(gpp_foo.cpp: 893)" "Foo" "m" (-1)%Z 0%Z in
  LowerBoundException.max e = 2147483647%Z
  /\ LowerBoundException.what e
     = "LowerBoundException: -1 is not in range [0, 2147483647]. m Foo (gpp_foo.cpp: 893)".
Proof. split; reflexivity. Qed.

Example UpperBoundException_double_10_5 :
  forall (PD : Printable double),
    UpperBoundException.min
      (UpperBoundException.ctor "(gpp_foo.cpp: 893)" "Foo" "m" 10%float 5%float)
    = (-0x1.fffffffffffffp+1023)%float.
Proof. reflexivity. Qed.

(** ** Raising and catching, with exceptions enabled *)

(** The typed view a handler gets agrees with the rule for matching
    handlers applied to the class table. *)
Lemma catch_BoundsException_matches {T : Type} `{ValueType T} (x : exn T) :
  (exists e, catch_BoundsException x = Some e)
  <-> handler_matches (BoundsException_class (cpp_type_of T)) (dynamic_type x) = true.
Proof.
  unfold handler_matches, dynamic_type.
  destruct x; cbn; rewrite ?String.eqb_refl; cbn;
    split; intros Hm; try discriminate; try (destruct Hm; discriminate); eauto.
Qed.

Lemma catch_LowerBoundException_matches {T : Type} `{ValueType T} (x : exn T) :
  (exists e, catch_LowerBoundException x = Some e)
  <-> handler_matches (LowerBoundException_class (cpp_type_of T)) (dynamic_type x) = true.
Proof.
  unfold handler_matches, dynamic_type.
  destruct x; cbn; rewrite ?String.eqb_refl; cbn;
    split; intros Hm; try discriminate; try (destruct Hm; discriminate); eauto.
Qed.

Lemma catch_UpperBoundException_matches {T : Type} `{ValueType T} (x : exn T) :
  (exists e, catch_UpperBoundException x = Some e)
  <-> handler_matches (UpperBoundException_class (cpp_type_of T)) (dynamic_type x) = true.
Proof.
  unfold handler_matches, dynamic_type.
  destruct x; cbn; rewrite ?String.eqb_refl; cbn;
    split; intros Hm; try discriminate; try (destruct Hm; discriminate); eauto.
Qed.

Lemma catch_RuntimeException_matches {T : Type} `{ValueType T} (x : exn T) :
  (exists e, catch_RuntimeException x = Some e)
  <-> handler_matches RuntimeException_class (dynamic_type x) = true.
Proof.
  unfold handler_matches, dynamic_type.
  destruct x; cbn; split; intros Hm; try discriminate;
    try (destruct Hm; discriminate); eauto.
Qed.

Lemma catch_InvalidValueException_matches {T : Type} `{ValueType T} (x : exn T) :
  (exists e, catch_InvalidValueException x = Some e)
  <-> handler_matches (InvalidValueException_class (cpp_type_of T)) (dynamic_type x) = true.
Proof.
  unfold handler_matches, dynamic_type.
  destruct x; cbn; rewrite ?String.eqb_refl; cbn;
    split; intros Hm; try discriminate; try (destruct Hm; discriminate); eauto.
Qed.

Lemma catch_SingularMatrixException_matches {T : Type} `{ValueType T} (x : exn T) :
  (exists e, catch_SingularMatrixException x = Some e)
  <-> handler_matches SingularMatrixException_class (dynamic_type x) = true.
Proof.
  unfold handler_matches, dynamic_type.
  destruct x; cbn; split; intros Hm; try discriminate;
    try (destruct Hm; discriminate); eauto.
Qed.

Lemma catch_std_exception_matches {T : Type} `{ValueType T} (x : exn T) :
  handler_matches std_exception (dynamic_type x) = true.
Proof. destruct x; reflexivity. Qed.

(** Nothing after a raise runs. *)
Lemma ThrowException_skips_continuation {T E A B : Type} `{ValueType T} `{!Throwable T E}
    (except : E) (k : A -> outcome T B) :
  bind (ThrowException except) k = Unwinding (exception_object except).
Proof. reflexivity. Qed.

(** C4: with exceptions enabled, [ThrowException] does not return (what
    follows it is not run, and its outcome is never a return), and a
    handler declared for the class of the raised object receives that
    object: the accessors called in the handler give the payload the
    constructor was given. *)
Theorem unwind_round_trip :
  forall (T : Type) (VT : ValueType T) (PT : Printable T)
         (line_info func_info custom_message : string),
    (forall (E A B : Type) (TE : Throwable T E) (except : E) (k : A -> outcome T B),
        (x <- ThrowException except ;; k x) = Unwinding (exception_object except)
        /\ forall a : A, @ThrowException T E TE A except <> Returned a)
    /\ (forall (A : Type) (handler : RuntimeException.t -> outcome T A),
          try_catch catch_RuntimeException
            (ThrowException (RuntimeException.ctor line_info func_info custom_message))
            handler
          = handler (RuntimeException.ctor line_info func_info custom_message))
    /\ (forall value_in min_in max_in : T,
          try_catch catch_BoundsException
            (ThrowException
               (BoundsException.ctor line_info func_info custom_message value_in min_in max_in))
            (fun e => Returned
                        (BoundsException.value e, BoundsException.min e, BoundsException.max e))
          = Returned (value_in, min_in, max_in))
    /\ (forall value_in min_in : T,
          try_catch catch_LowerBoundException
            (ThrowException
               (LowerBoundException.ctor line_info func_info custom_message value_in min_in))
            (fun e => Returned (LowerBoundException.value e, LowerBoundException.min e))
          = Returned (value_in, min_in))
    /\ (forall value_in max_in : T,
          try_catch catch_UpperBoundException
            (ThrowException
               (UpperBoundException.ctor line_info func_info custom_message value_in max_in))
            (fun e => Returned (UpperBoundException.value e, UpperBoundException.max e))
          = Returned (value_in, max_in))
    /\ (forall value_in truth_in : T,
          try_catch catch_InvalidValueException
            (ThrowException
               (InvalidValueException.ctor line_info func_info custom_message value_in truth_in))
            (fun e => Returned (InvalidValueException.value e, InvalidValueException.truth e))
          = Returned (value_in, truth_in))
    /\ (forall (enabled : InvalidValueException.tolerance_ctor_enabled T)
               (value_in truth_in tolerance_in : T),
          try_catch catch_InvalidValueException
            (ThrowException
               (InvalidValueException.ctor_tolerance enabled line_info func_info custom_message
                  value_in truth_in tolerance_in))
            (fun e => Returned
                        (InvalidValueException.value e, InvalidValueException.truth e,
                         InvalidValueException.tolerance e))
          = Returned (value_in, truth_in, tolerance_in))
    /\ (forall (m : memory) (matrix_in : Z) (num_rows_in num_cols_in : int),
          try_catch catch_SingularMatrixException
            (ThrowException
               (SingularMatrixException.ctor m line_info func_info custom_message
                  matrix_in num_rows_in num_cols_in))
            (fun e => Returned
                        (SingularMatrixException.num_rows e, SingularMatrixException.num_cols e,
                         SingularMatrixException.matrix e))
          = Returned (num_rows_in, num_cols_in,
                      read_range m matrix_in (Z.to_nat (num_rows_in * num_cols_in)))).
Proof.
  intros T VT PT line_info func_info custom_message.
  split.
  { intros E A B TE except k. split.
    - apply ThrowException_skips_continuation.
    - intros a Hr. unfold ThrowException in Hr. discriminate Hr. }
  repeat split.
Qed.

(** A raise inside a handler-less block goes on to the next enclosing
    [try]: the nearest handler that matches takes it. *)
Example nearest_matching_handler :
  try_catch catch_BoundsException
    (try_catch catch_RuntimeException
       (ThrowException (LowerBoundException.ctor "(gpp_foo.cpp: 893)" "Foo" "m" (-1)%Z 0%Z))
       (fun _ => Returned "inner"))
    (fun e => Returned (int_to_string (BoundsException.min e)))
  = Returned "0".
Proof. reflexivity. Qed.

(** The header's own use of the macro, at line 893 of gpp_foo.cpp inside
    Foo, caught where it is raised. *)
Example OL_THROW_EXCEPTION_BoundsException :
  try_catch catch_BoundsException
    (OL_THROW_EXCEPTION "gpp_foo.cpp" 893 "Foo"
       (fun line_info func_info =>
          BoundsException.ctor line_info func_info "Invalid length scale." 5%Z 0%Z 3%Z))
    (fun e => Returned (BoundsException.what e))
  = Returned
      "BoundsException: 5 is not in range [0, 3]. Invalid length scale. Foo (gpp_foo.cpp: 893)".
Proof. reflexivity. Qed.

(** A handler for another class lets the exception pass. *)
Example handler_of_other_class_is_no_match :
  try_catch catch_RuntimeException
    (ThrowException (BoundsException.ctor "(gpp_foo.cpp: 893)" "Foo" "m" 5%Z 0%Z 3%Z))
    (fun _ => Returned "handled")
  = Unwinding (ExBounds (BoundsException.ctor "(gpp_foo.cpp: 893)" "Foo" "m" 5%Z 0%Z 3%Z)).
Proof. reflexivity. Qed.

(** C10: LowerBoundException<T> and UpperBoundException<T> derive
    publicly from BoundsException<T>: a handler declared for
    BoundsException<T> is a match for both and receives their base
    subobject, and their value(), min() and max() are those of that base
    subobject. *)
Theorem bound_exceptions_are_public_subclasses :
  forall (T : Type) (VT : ValueType T) (PT : Printable T),
    LowerBoundException_class (cpp_type_of T)
    = Class (type_name (LowerBoundException_class (cpp_type_of T)))
            (Base Public (BoundsException_class (cpp_type_of T)) NoBases)
    /\ UpperBoundException_class (cpp_type_of T)
       = Class (type_name (UpperBoundException_class (cpp_type_of T)))
               (Base Public (BoundsException_class (cpp_type_of T)) NoBases)
    /\ handler_matches (BoundsException_class (cpp_type_of T))
                       (LowerBoundException_class (cpp_type_of T)) = true
    /\ handler_matches (BoundsException_class (cpp_type_of T))
                       (UpperBoundException_class (cpp_type_of T)) = true
    /\ (forall (A : Type) (handler : BoundsException.t T -> outcome T A)
               (e : LowerBoundException.t T),
          try_catch catch_BoundsException (ThrowException e) handler
          = handler (LowerBoundException.base e))
    /\ (forall (A : Type) (handler : BoundsException.t T -> outcome T A)
               (e : UpperBoundException.t T),
          try_catch catch_BoundsException (ThrowException e) handler
          = handler (UpperBoundException.base e))
    /\ (forall e : LowerBoundException.t T,
          LowerBoundException.value e = BoundsException.value (LowerBoundException.base e)
          /\ LowerBoundException.min e = BoundsException.min (LowerBoundException.base e)
          /\ LowerBoundException.max e = BoundsException.max (LowerBoundException.base e))
    /\ (forall e : UpperBoundException.t T,
          UpperBoundException.value e = BoundsException.value (UpperBoundException.base e)
          /\ UpperBoundException.min e = BoundsException.min (UpperBoundException.base e)
          /\ UpperBoundException.max e = BoundsException.max (UpperBoundException.base e)).
Proof.
  intros T VT PT.
  split; [reflexivity|]. split; [reflexivity|].
  split.
  { apply (catch_BoundsException_matches
             (ExLowerBound (LowerBoundException.mk
                              (BoundsException.mk (value_zero T) (value_zero T) (value_zero T) "")))).
    eexists. reflexivity. }
  split.
  { apply (catch_BoundsException_matches
             (ExUpperBound (UpperBoundException.mk
                              (BoundsException.mk (value_zero T) (value_zero T) (value_zero T) "")))).
    eexists. reflexivity. }
  repeat split.
Qed.

(** ** InvalidValueException: the constructor with a tolerance *)

(** The example of the specification (value 1, truth 2, tolerance the
    double nearest to 0.1), with the layout of the message for whatever way
    doubles are printed. *)
Example InvalidValueException_tolerance_message :
  forall (PD : Printable double) (enabled : InvalidValueException.tolerance_ctor_enabled double),
    InvalidValueException.what
      (InvalidValueException.ctor_tolerance enabled "(gpp_foo.cpp: 893)" "Foo" "m"
         1%float 2%float 0x1.999999999999ap-4%float)
    = "InvalidValueException: " ++ to_string 1%float ++ " != " ++ to_string 2%float ++ " ± "
        ++ to_string 0x1.999999999999ap-4%float ++ " (value != truth ± tolerance). m Foo (gpp_foo.cpp: 893)".
Proof.
  intros. unfold InvalidValueException.what, InvalidValueException.ctor_tolerance,
    InvalidValueException.mismatch_sentence_tolerance.
  cbn [InvalidValueException.message_]. rewrite !append_assoc. reflexivity.
Qed.

(** C5: the constructor of InvalidValueException<T> that takes a
    tolerance exists exactly when T is a floating point type.  When T is
    not (int, for one), nothing can stand for the evidence the constructor
    asks for, so no call of it type checks; nothing is tested when a call
    runs.  When T is (double, for one), the evidence exists and the
    constructor gives an object that holds the three values. *)
Theorem tolerance_ctor_only_for_floating_point :
  forall (T : Type) (VT : ValueType T),
    (is_floating_point (cpp_type_of T) = false ->
     InvalidValueException.tolerance_ctor_enabled T -> False)
    /\ (is_floating_point (cpp_type_of T) = true ->
        exists enabled : InvalidValueException.tolerance_ctor_enabled T,
        forall (PT : Printable T) (line_info func_info custom_message : string)
               (value_in truth_in tolerance_in : T),
          InvalidValueException.value
            (InvalidValueException.ctor_tolerance enabled line_info func_info custom_message
               value_in truth_in tolerance_in) = value_in
          /\ InvalidValueException.truth
               (InvalidValueException.ctor_tolerance enabled line_info func_info custom_message
                  value_in truth_in tolerance_in) = truth_in
          /\ InvalidValueException.tolerance
               (InvalidValueException.ctor_tolerance enabled line_info func_info custom_message
                  value_in truth_in tolerance_in) = tolerance_in)
    /\ (InvalidValueException.tolerance_ctor_enabled int -> False)
    /\ InvalidValueException.tolerance_ctor_enabled double.
Proof.
  intros T VT. unfold InvalidValueException.tolerance_ctor_enabled.
  split; [| split; [| split]].
  - intros Hnot Hen. rewrite Hnot in Hen. discriminate Hen.
  - intros Hfp. exists Hfp. intros. repeat split.
  - simpl. discriminate.
  - reflexivity.
Qed.

(** No class is a floating point type, and of the fundamental types only
    float, double and long double are. *)
Lemma is_floating_point_cases (t : cpp_type) :
  is_floating_point t = true ->
  t = Fundamental "float" \/ t = Fundamental "double" \/ t = Fundamental "long double".
Proof.
  destruct t as [n | n bases]; simpl; [|discriminate].
  intros Hfp. apply orb_true_iff in Hfp. destruct Hfp as [Hfp | Hfp].
  - apply orb_true_iff in Hfp. destruct Hfp as [Hfp | Hfp];
      apply String.eqb_eq in Hfp; subst; auto.
  - apply String.eqb_eq in Hfp; subst; auto.
Qed.

(** ** SingularMatrixException *)

Lemma read_range_length (m : memory) (p : Z) (n : nat) :
  length (read_range m p n) = n.
Proof. unfold read_range. now rewrite length_map, length_seq. Qed.

Lemma read_range_nth (m : memory) (p : Z) (n k : nat) :
  (k < n)%nat -> nth_error (read_range m p n) k = Some (m (p + Z.of_nat k)%Z).
Proof.
  intros Hk. unfold read_range. rewrite nth_error_map, nth_error_seq.
  apply Nat.ltb_lt in Hk. now rewrite Hk.
Qed.

(** A later store by the caller into the cell it passed changes what the
    caller's storage holds. *)
Lemma store_same (m : memory) (a : Z) (v : double) : store m a v a = v.
Proof. unfold store. now rewrite Z.eqb_refl. Qed.

(** C6: the constructor stores the two dimensions and copies the
    [num_rows * num_cols] doubles at [matrix_in], in address order, into
    the vector the object owns: entry (i, j) of the matrix is at index
    [i * num_cols + j].  The object holds the values, not the address:
    whatever the caller stores into its memory afterwards, [matrix()]
    still gives the entries as they were at construction. *)
Theorem SingularMatrixException_owns_copy :
  forall (m : memory) (line_info func_info custom_message : string)
         (matrix_in : Z) (num_rows_in num_cols_in : int),
    SingularMatrixException.num_rows
      (SingularMatrixException.ctor m line_info func_info custom_message
         matrix_in num_rows_in num_cols_in) = num_rows_in
    /\ SingularMatrixException.num_cols
         (SingularMatrixException.ctor m line_info func_info custom_message
            matrix_in num_rows_in num_cols_in) = num_cols_in
    /\ length (SingularMatrixException.matrix
                 (SingularMatrixException.ctor m line_info func_info custom_message
                    matrix_in num_rows_in num_cols_in))
       = Z.to_nat (num_rows_in * num_cols_in)
    /\ (forall i j : Z,
          (0 <= i < num_rows_in)%Z -> (0 <= j < num_cols_in)%Z ->
          nth_error (SingularMatrixException.matrix
                       (SingularMatrixException.ctor m line_info func_info custom_message
                          matrix_in num_rows_in num_cols_in))
                    (Z.to_nat (i * num_cols_in + j))
          = Some (m (matrix_in + (i * num_cols_in + j))%Z))
    /\ (forall (a : Z) (v : double) (i j : Z),
          (0 <= i < num_rows_in)%Z -> (0 <= j < num_cols_in)%Z ->
          a = (matrix_in + (i * num_cols_in + j))%Z ->
          store m a v a = v
          /\ nth_error (SingularMatrixException.matrix
                          (SingularMatrixException.ctor m line_info func_info custom_message
                             matrix_in num_rows_in num_cols_in))
                       (Z.to_nat (i * num_cols_in + j))
             = Some (m a)).
Proof.
  intros m line_info func_info custom_message matrix_in num_rows_in num_cols_in.
  assert (Hnth : forall i j : Z,
             (0 <= i < num_rows_in)%Z -> (0 <= j < num_cols_in)%Z ->
             nth_error (read_range m matrix_in (Z.to_nat (num_rows_in * num_cols_in)))
                       (Z.to_nat (i * num_cols_in + j))
             = Some (m (matrix_in + (i * num_cols_in + j))%Z)).
  { intros i j Hi Hj. rewrite read_range_nth.
    - rewrite Z2Nat.id by nia. reflexivity.
    - apply Z2Nat.inj_lt; nia. }
  split; [reflexivity|]. split; [reflexivity|].
  split; [apply read_range_length|].
  split; [exact Hnth|].
  intros a v i j Hi Hj Ha. split; [apply store_same|].
  subst a. now apply Hnth.
Qed.

(** The example of the specification: a 2 x 2 matrix, whose four entries
    sit at addresses 100 to 103 of the caller's memory. *)
Definition memory_2x2 : memory :=
  store (store (store (store (fun _ => 0%float) 100 1%float) 101 2%float) 102 3%float)
        103 4%float.

Example SingularMatrixException_2x2 :
  let e := SingularMatrixException.ctor memory_2x2 "(gpp_foo.cpp: 893)" "Foo" "m"
             100%Z 2%Z 2%Z in
  SingularMatrixException.num_rows e = 2%Z
  /\ SingularMatrixException.num_cols e = 2%Z
  /\ SingularMatrixException.matrix e = [1%float; 2%float; 3%float; 4%float]
  /\ SingularMatrixException.what e
     = "SingularMatrixException: 2 x 2 matrix is singular. m Foo (gpp_foo.cpp: 893)".
Proof. repeat split. Qed.

(** The caller overwrites entry (0, 1) after the construction: its
    storage has the new value, the exception object the old one. *)
Example SingularMatrixException_2x2_after_store :
  let e := SingularMatrixException.ctor memory_2x2 "(gpp_foo.cpp: 893)" "Foo" "m"
             100%Z 2%Z 2%Z in
  let later := store memory_2x2 101 9%float in
  read_range later 100 4 = [1%float; 9%float; 3%float; 4%float]
  /\ SingularMatrixException.matrix e = [1%float; 2%float; 3%float; 4%float].
Proof. split; reflexivity. Qed.

(** ** Raising with OL_NO_EXCEPTIONS defined *)

Lemma run_bind_events_of_stopped {T A B : Type} (c : run T A) (k : A -> run T B) :
  (forall a, result c <> Finished a) ->
  events (run_bind c k) = events c.
Proof.
  intros Hc. unfold run_bind. destruct (result c) as [a| |] eqn:Hr; simpl.
  - exfalso. now apply (Hc a).
  - reflexivity.
  - reflexivity.
Qed.

(** C7: with exceptions disabled, a raise is one call of the user's
    ThrowException with the error object, and control does not come back
    to the caller: what follows the raise adds no call and the run does not
    finish.  If the user's function does not return the run stops there; if
    it returns the behaviour is undefined. *)
Theorem no_exceptions_raise_calls_user_once :
  forall (T : Type) (user_ThrowException : exn T -> call_end) (x : exn T)
         (A B : Type) (k : A -> run T B),
    events (run_bind (ThrowException_no_exceptions user_ThrowException x) k)
    = [CallUserThrowException x]
    /\ (forall b : B,
          result (run_bind (ThrowException_no_exceptions user_ThrowException x) k)
          <> Finished b)
    /\ (user_ThrowException x = NeverReturns ->
        result (run_bind (ThrowException_no_exceptions user_ThrowException x) k) = Stopped)
    /\ (user_ThrowException x = ReturnsToCaller ->
        result (run_bind (ThrowException_no_exceptions user_ThrowException x) k)
        = UndefinedBehaviour).
Proof.
  intros T user x A B k.
  assert (Hnot : forall a : A,
             result (@ThrowException_no_exceptions T user A x) <> Finished a).
  { intros a. unfold ThrowException_no_exceptions; simpl.
    destruct (user x); discriminate. }
  split; [| split; [| split]].
  - rewrite run_bind_events_of_stopped by exact Hnot. reflexivity.
  - intros b. unfold run_bind, ThrowException_no_exceptions; simpl.
    destruct (user x); simpl; discriminate.
  - intros Hu. unfold run_bind, ThrowException_no_exceptions; simpl.
    rewrite Hu. reflexivity.
  - intros Hu. unfold run_bind, ThrowException_no_exceptions; simpl.
    rewrite Hu. reflexivity.
Qed.

(** A user's definition that aborts, and one that wrongly returns. *)
Example no_exceptions_abort :
  run_bind
    (ThrowException_no_exceptions (fun _ : exn int => NeverReturns)
       (ExRuntime (RuntimeException.ctor "(gpp_foo.cpp: 893)" "Foo" "m")))
    (fun _ : unit => run_ret 0%Z)
  = mkRun [CallUserThrowException
             (ExRuntime (RuntimeException.ctor "(gpp_foo.cpp: 893)" "Foo" "m"))]
          Stopped.
Proof. reflexivity. Qed.

Example no_exceptions_return_is_undefined :
  result
    (run_bind
       (ThrowException_no_exceptions (fun _ : exn int => ReturnsToCaller)
          (ExRuntime (RuntimeException.ctor "(gpp_foo.cpp: 893)" "Foo" "m")))
       (fun _ : unit => run_ret 0%Z))
  = UndefinedBehaviour.
Proof. reflexivity. Qed.

(** ** The static assertion of ThrowException *)

Lemma has_public_base_has_base (b : string) (d : cpp_type) :
  has_public_base b d = true -> has_base b d = true.
Proof.
  revert d.
  refine (fix on_type (d : cpp_type) : has_public_base b d = true -> has_base b d = true :=
            match d with
            | Fundamental _ => fun H => H
            | Class _ bases => on_bases bases
            end
          with on_bases (l : base_list) :
            has_public_base_in b l = true -> has_base_in b l = true :=
            match l with
            | NoBases => fun H => H
            | Base a t more => _
            end
          for on_type).
  simpl. intros H.
  destruct a.
  - apply orb_true_iff in H. destruct H as [H | H].
    + apply orb_true_iff in H. destruct H as [H | H].
      * rewrite H. reflexivity.
      * rewrite (on_type t H). now rewrite orb_true_r.
    + rewrite (on_bases more H). now rewrite orb_true_r.
  - rewrite (on_bases more H). now rewrite orb_true_r.
  - rewrite (on_bases more H). now rewrite orb_true_r.
Qed.

(** A class that derives from std::exception, but not publicly. *)
Definition PrivatelyDerived : cpp_type :=
  Class "PrivatelyDerived" (Base Private std_exception NoBases).

(** C8, as amended: ThrowException<E> passes its static assertion exactly
    when E is a class that is std::exception or has std::exception among
    its direct or indirect bases, whatever the access of the derivation.
    So a type that does not derive from std::exception is refused when the
    template is instantiated (a fundamental type always is), every class
    that derives publicly is accepted, and the six classes of the header
    are. *)
Theorem ThrowException_requires_std_exception_base :
  forall E : cpp_type,
    (ThrowException_static_assert E = true
     <-> is_class E = true
         /\ (type_name E = "std::exception" \/ has_base "std::exception" E = true))
    /\ (is_class E = false -> ThrowException_static_assert E = false)
    /\ (type_name E <> "std::exception" -> has_base "std::exception" E = false ->
        ThrowException_static_assert E = false)
    /\ (has_public_base "std::exception" E = true -> ThrowException_static_assert E = true)
    /\ (forall (vt : cpp_type) (k : kind),
          ThrowException_static_assert (class_of_kind vt k) = true).
Proof.
  intros E. unfold ThrowException_static_assert, is_base_of.
  change (type_name std_exception) with "std::exception".
  change (is_class std_exception) with true.
  rewrite andb_true_l.
  assert (Hiff : is_class E && (("std::exception" =? type_name E) || has_base "std::exception" E)
                 = true
                 <-> is_class E = true
                     /\ (type_name E = "std::exception" \/ has_base "std::exception" E = true)).
  { rewrite andb_true_iff, orb_true_iff, String.eqb_eq.
    split; intros [Hc [Hn | Hb]]; split; auto. }
  split; [exact Hiff|].
  split; [intros Hc; now rewrite Hc|].
  split.
  { intros Hn Hb. rewrite Hb. apply String.eqb_neq in Hn.
    rewrite String.eqb_sym, Hn. now rewrite andb_false_r. }
  split.
  { intros Hp. apply Hiff. split.
    - destruct E; [discriminate Hp | reflexivity].
    - right. now apply has_public_base_has_base. }
  intros vt k. destruct k; reflexivity.
Qed.

(** C8, as stated, fails: the static assertion accepts a class whose
    derivation from std::exception is private, although it does not derive
    publicly (a handler for std::exception is no match for it). *)
Lemma static_assert_accepts_private_derivation :
  ThrowException_static_assert PrivatelyDerived = true
  /\ has_public_base "std::exception" PrivatelyDerived = false
  /\ handler_matches std_exception PrivatelyDerived = false.
Proof. repeat split. Qed.

(** ** Special member functions and the lifetime of an error value *)

Section Lifetime.

Variable macro : list member_declaration.

Hypothesis macro_deletes_default_ctor : In DefaultCtorDeleted macro.
Hypothesis macro_deletes_copy_assignment : In CopyAssignmentDeleted macro.

Lemma default_ctor_deleted_everywhere (k : kind) :
  default_constructible macro k = false.
Proof.
  unfold default_constructible. apply negb_false_iff, existsb_exists.
  exists DefaultCtorDeleted. split; [| reflexivity].
  destruct k; simpl; auto.
Qed.

Lemma copy_assignable_only_RuntimeException (k : kind) :
  copy_assignable macro k = kind_eqb k KRuntime.
Proof.
  destruct k; try reflexivity; unfold copy_assignable;
    apply negb_false_iff, existsb_exists;
    exists CopyAssignmentDeleted; (split; [exact macro_deletes_copy_assignment | reflexivity]).
Qed.

Lemma implicitly_movable_only_RuntimeException (k : kind) :
  implicitly_movable macro k = kind_eqb k KRuntime.
Proof. exact (copy_assignable_only_RuntimeException k). Qed.

Lemma not_RuntimeException (k : kind) : k <> KRuntime -> kind_eqb k KRuntime = false.
Proof. destruct k; intros Hk; try reflexivity. now contradiction Hk. Qed.

Lemma apply_operation_fixed {T : Type} (x x' : exn T) (op : operation T) :
  kind_of x <> KRuntime ->
  apply_operation macro x op = Some x' -> x' = x.
Proof.
  intros Hk Ha. destruct op as [| | source | after]; simpl in Ha.
  - now inversion Ha.
  - now inversion Ha.
  - rewrite copy_assignable_only_RuntimeException, (not_RuntimeException Hk),
      andb_false_r in Ha. discriminate Ha.
  - rewrite implicitly_movable_only_RuntimeException, (not_RuntimeException Hk) in Ha.
    now inversion Ha.
Qed.

Lemma lifetime_fixed {T : Type} (ops : list (operation T)) :
  forall x x' : exn T,
    kind_of x <> KRuntime ->
    lifetime macro x ops = Some x' -> x' = x.
Proof.
  induction ops as [| op rest IH]; intros x x' Hk Hl; simpl in Hl.
  - now inversion Hl.
  - destruct (apply_operation macro x op) as [x1 |] eqn:Ha; [| discriminate Hl].
    assert (x1 = x) by (eapply apply_operation_fixed; eauto). subst x1. now apply IH.
Qed.

(** Every value of a class other than RuntimeException that a program
    holds is one a constructor with its payload built, or the base
    subobject of one. *)
Lemma obtainable_is_constructed {T : Type} `{ValueType T} `{Printable T} (x : exn T) :
  obtainable macro x ->
  kind_of x <> KRuntime ->
  exists (line_info func_info custom_message : string) (a : ctor_args T),
    x = construct line_info func_info custom_message a
    \/ slice (construct line_info func_info custom_message a) = Some x.
Proof.
  intros Hx.
  induction Hx as [x Hd | l f m a | x Hx IH | x y Hx IH Hs
                   | x source y Hx IHx Hsrc IHs Ha | x after y Hx IH Ha]; intros Hk.
  - rewrite default_ctor_deleted_everywhere in Hd. discriminate Hd.
  - exists l, f, m, a. now left.
  - apply IH. exact Hk.
  - assert (Hkx : kind_of x <> KRuntime)
      by (destruct x; simpl in Hs; try discriminate Hs; discriminate).
    destruct (IH Hkx) as (l & f & m & a & [Hc | Hc]).
    + exists l, f, m, a. right. now rewrite <- Hc.
    + destruct (construct l f m a); simpl in Hc; try discriminate Hc;
        inversion Hc; subst x; discriminate Hs.
  - simpl in Ha. rewrite copy_assignable_only_RuntimeException in Ha.
    destruct (kind_eqb (kind_of source) (kind_of x)) eqn:Hsame; simpl in Ha;
      [| discriminate Ha].
    destruct (kind_eqb (kind_of x) KRuntime) eqn:Hrt; [| discriminate Ha].
    inversion Ha; subst y. exfalso. apply Hk.
    destruct source, x; simpl in *; try discriminate; reflexivity.
  - simpl in Ha. rewrite implicitly_movable_only_RuntimeException in Ha.
    destruct (kind_eqb (kind_of x) KRuntime) eqn:Hrt.
    + destruct (kind_eqb (kind_of after) (kind_of x)) eqn:Hsame; [| discriminate Ha].
      inversion Ha; subst y. exfalso. apply Hk.
      destruct after, x; simpl in *; try discriminate; reflexivity.
    + inversion Ha; subst y. apply IH. exact Hk.
Qed.

End Lifetime.

(** C9, as amended: RuntimeException declares its default constructor
    deleted, and the other five classes use OL_DISALLOW_DEFAULT_AND_ASSIGN.
    When that macro declares the default constructor and the copy
    assignment operator deleted, as its name says: no class can be default
    constructed; only RuntimeException can be assigned to or moved from; an
    error value of another class only comes into being through a
    constructor that takes its payload, or as a copy of such a value (for a
    BoundsException also the base subobject of a LowerBoundException or
    UpperBoundException); and it goes through every sequence of well-formed
    operations (calls of const members, being copied, being the source of a
    move; an assignment to it is ill formed) with its payload and message
    as they were built. *)
Theorem error_values_fixed_except_RuntimeException :
  forall (macro : list member_declaration) (T : Type) (VT : ValueType T) (PT : Printable T),
    In DefaultCtorDeleted macro ->
    In CopyAssignmentDeleted macro ->
    (forall k : kind, default_constructible macro k = false)
    /\ (forall k : kind,
          copy_assignable macro k = kind_eqb k KRuntime
          /\ implicitly_movable macro k = kind_eqb k KRuntime)
    /\ (forall x : exn T,
          obtainable macro x ->
          kind_of x <> KRuntime ->
          exists (line_info func_info custom_message : string) (a : ctor_args T),
            x = construct line_info func_info custom_message a
            \/ slice (construct line_info func_info custom_message a) = Some x)
    /\ (forall (x x' : exn T) (ops : list (operation T)),
          kind_of x <> KRuntime ->
          lifetime macro x ops = Some x' ->
          x' = x /\ what_of x' = what_of x)
    /\ (forall (x : exn T) (source : exn T),
          kind_of x <> KRuntime -> apply_operation macro x (Assign source) = None).
Proof.
  intros macro T VT PT Hd Ha.
  split; [intros k; now apply default_ctor_deleted_everywhere|].
  split.
  { intros k. split.
    - now apply copy_assignable_only_RuntimeException.
    - now apply implicitly_movable_only_RuntimeException. }
  split; [intros x; now apply obtainable_is_constructed|].
  split.
  - intros x x' ops Hk Hl.
    assert (x' = x) by (eapply lifetime_fixed; eauto). subst x'. now split.
  - intros x source Hk. simpl.
    rewrite (@copy_assignable_only_RuntimeException macro Ha), (not_RuntimeException Hk),
      andb_false_r. reflexivity.
Qed.

(** The macro as its name reads, and a BoundsException that is called,
    copied (as ThrowException does) and used as the source of a move: it is
    the same value afterwards. *)
Lemma error_values_fixed_witness :
  In DefaultCtorDeleted [DefaultCtorDeleted; CopyAssignmentDeleted]
  /\ In CopyAssignmentDeleted [DefaultCtorDeleted; CopyAssignmentDeleted]
  /\ lifetime [DefaultCtorDeleted; CopyAssignmentDeleted]
       (ExBounds (BoundsException.ctor "(gpp_foo.cpp: 893)" "Foo" "m" 5%Z 0%Z 3%Z))
       [CallConstMember; CopyFrom;
        MoveFrom (ExBounds (BoundsException.ctor "(gpp_bar.cpp: 7)" "Bar" "" 0%Z 0%Z 0%Z))]
     = Some (ExBounds (BoundsException.ctor "(gpp_foo.cpp: 893)" "Foo" "m" 5%Z 0%Z 3%Z))
  /\ apply_operation [DefaultCtorDeleted; CopyAssignmentDeleted]
       (ExBounds (BoundsException.ctor "(gpp_foo.cpp: 893)" "Foo" "m" 5%Z 0%Z 3%Z))
       (Assign (ExBounds (BoundsException.ctor "(gpp_bar.cpp: 7)" "Bar" "" 0%Z 0%Z 0%Z)))
     = None.
Proof.
  assert (Hd : In DefaultCtorDeleted [DefaultCtorDeleted; CopyAssignmentDeleted])
    by (simpl; auto).
  assert (Ha : In CopyAssignmentDeleted [DefaultCtorDeleted; CopyAssignmentDeleted])
    by (simpl; auto).
  split; [exact Hd|]. split; [exact Ha|]. split; [reflexivity|].
  refine (proj2 (proj2 (proj2 (proj2
            (@error_values_fixed_except_RuntimeException
               [DefaultCtorDeleted; CopyAssignmentDeleted] int int_ValueType int_Printable
               Hd Ha))))
            _ _ _).
  discriminate.
Defined.

(** C9, as stated, fails for RuntimeException, whatever the macro is: a
    value of that class can be assigned to after its construction, and its
    message is then the other value's. *)
Lemma RuntimeException_can_be_reassigned :
  (forall macro : list member_declaration,
      lifetime (T := int) macro
        (ExRuntime (RuntimeException.ctor "(gpp_foo.cpp: 893)" "Foo" "first"))
        [Assign (ExRuntime (RuntimeException.ctor "(gpp_bar.cpp: 7)" "Bar" "second"))]
      = Some (ExRuntime (RuntimeException.ctor "(gpp_bar.cpp: 7)" "Bar" "second")))
  /\ what_of (T := int) (ExRuntime (RuntimeException.ctor "(gpp_foo.cpp: 893)" "Foo" "first"))
     = "RuntimeException: first Foo (gpp_foo.cpp: 893)"
  /\ what_of (T := int) (ExRuntime (RuntimeException.ctor "(gpp_bar.cpp: 7)" "Bar" "second"))
     = "RuntimeException: second Bar (gpp_bar.cpp: 7)".
Proof. repeat split. Qed.

(** * Further properties of the header *)

From Stdlib Require DecimalZ.

(** ** The location token identifies the call site *)

(** Reading a decimal numeral back. *)
Definition line_of_string (s : string) : option Z :=
  option_map Z.of_int (NilZero.int_of_string s).

Fixpoint has_space (s : string) : bool :=
  match s with
  | EmptyString => false
  | String a s' => Ascii.eqb a " " || has_space s'
  end.

Lemma length_append (a b : string) :
  String.length (a ++ b) = String.length a + String.length b.
Proof. induction a as [|x a IH]; simpl; [reflexivity | now rewrite IH]. Qed.

Lemma append_cancel_r (c : string) :
  forall a b : string, a ++ c = b ++ c -> a = b.
Proof.
  induction a as [|x a IH]; intros [|y b] Heq; simpl in Heq.
  - reflexivity.
  - apply (f_equal String.length) in Heq. simpl in Heq.
    rewrite length_append in Heq. lia.
  - apply (f_equal String.length) in Heq. simpl in Heq.
    rewrite length_append in Heq. lia.
  - inversion Heq; subst. f_equal. now apply IH.
Qed.

Lemma eqb_append_r (a b c : string) :
  String.eqb (a ++ c) (b ++ c) = String.eqb a b.
Proof.
  destruct (String.eqb_spec a b) as [-> | Hne].
  - apply String.eqb_refl.
  - apply String.eqb_neq. intros Heq. apply Hne. now apply append_cancel_r in Heq.
Qed.

Lemma has_space_append (a b : string) :
  has_space (a ++ b) = has_space a || has_space b.
Proof.
  induction a as [|x a IH]; simpl; [reflexivity | now rewrite IH, orb_assoc].
Qed.

(** Two texts that end in a space and a word without spaces are equal only
    if the words and what comes before them are. *)
Lemma split_at_last_space (d1 d2 : string) :
  has_space d1 = false -> has_space d2 = false ->
  forall f1 f2 : string,
    f1 ++ " " ++ d1 = f2 ++ " " ++ d2 -> f1 = f2 /\ d1 = d2.
Proof.
  intros H1 H2. induction f1 as [|x f1 IH]; intros [|y f2] Heq; simpl in Heq.
  - inversion Heq. now split.
  - inversion Heq as [[Hy Hd]]. rewrite Hd in H1.
    rewrite has_space_append in H1. simpl in H1. now rewrite orb_true_r in H1.
  - inversion Heq as [[Hx Hd]]. rewrite <- Hd in H2.
    rewrite has_space_append in H2. simpl in H2. now rewrite orb_true_r in H2.
  - inversion Heq; subst. destruct (IH f2) as [Hf Hd]; [assumption|]. now subst.
Qed.

Lemma uint_numeral_has_no_space (d : Decimal.uint) :
  has_space (NilEmpty.string_of_uint d) = false.
Proof. induction d; simpl; assumption || reflexivity. Qed.

Lemma numeral_has_no_space (d : Decimal.uint) :
  has_space (NilZero.string_of_uint d) = false.
Proof. destruct d; simpl; try reflexivity; apply uint_numeral_has_no_space. Qed.

Lemma int_to_string_has_no_space (n : int) : has_space (int_to_string n) = false.
Proof.
  unfold int_to_string. destruct (Z.to_int n) as [d | d].
  - apply numeral_has_no_space.
  - simpl. apply numeral_has_no_space.
Qed.

Lemma to_int_is_no_empty_numeral (n : Z) :
  Z.to_int n <> Decimal.Pos Decimal.Nil /\ Z.to_int n <> Decimal.Neg Decimal.Nil.
Proof.
  split; intros Hn;
    assert (H0 : n = 0%Z) by (rewrite <- (DecimalZ.of_to n), Hn; reflexivity);
    subst n; discriminate Hn.
Qed.

Lemma line_of_string_int_to_string (n : int) :
  line_of_string (int_to_string n) = Some n.
Proof.
  unfold line_of_string, int_to_string.
  destruct (to_int_is_no_empty_numeral n) as [Hp Hn].
  rewrite NilZero.isi by assumption. simpl. now rewrite DecimalZ.of_to.
Qed.

Lemma int_to_string_inj (n n' : int) : int_to_string n = int_to_string n' -> n = n'.
Proof.
  intros Heq. apply (f_equal line_of_string) in Heq.
  rewrite !line_of_string_int_to_string in Heq. now inversion Heq.
Qed.

(** The stringified line number is a decimal numeral that reads back as
    the line number, and has no space in it. *)
Theorem OL_STRINGIFY_EXPANSION_round_trip :
  forall line : Z,
    line_of_string (OL_STRINGIFY_EXPANSION line) = Some line
    /\ has_space (OL_STRINGIFY_EXPANSION line) = false.
Proof.
  intros line. unfold OL_STRINGIFY_EXPANSION. split.
  - apply line_of_string_int_to_string.
  - apply int_to_string_has_no_space.
Qed.

(** Two uses of OL_STRINGIFY_FILE_AND_LINE give the same token exactly
    when they are in the same file on the same line, whatever the file
    names are. *)
Theorem OL_STRINGIFY_FILE_AND_LINE_identifies_site :
  forall (file file' : string) (line line' : Z),
    OL_STRINGIFY_FILE_AND_LINE file line = OL_STRINGIFY_FILE_AND_LINE file' line'
    <-> file = file' /\ line = line'.
Proof.
  intros file file' line line'. split; [| intros [-> ->]; reflexivity].
  unfold OL_STRINGIFY_FILE_AND_LINE, OL_STRINGIFY_EXPANSION. intros Heq.
  simpl in Heq. inversion Heq as [Hbody]. clear Heq.
  assert (Hsplit : (file ++ ":") ++ " " ++ (int_to_string line ++ ")")
                   = (file' ++ ":") ++ " " ++ (int_to_string line' ++ ")")).
  { rewrite !append_assoc. exact Hbody. }
  apply split_at_last_space in Hsplit.
  - destruct Hsplit as [Hfile Hline].
    apply append_cancel_r in Hfile. apply append_cancel_r in Hline.
    split; [assumption | now apply int_to_string_inj].
  - rewrite has_space_append, int_to_string_has_no_space. reflexivity.
  - rewrite has_space_append, int_to_string_has_no_space. reflexivity.
Qed.

(** A file name with the separator in it still gives a token of its own. *)
Example OL_STRINGIFY_FILE_AND_LINE_odd_file_name :
  OL_STRINGIFY_FILE_AND_LINE "a: 1" 2 = "(a: 1: 2)"
  /\ OL_STRINGIFY_FILE_AND_LINE "a" 1 = "(a: 1)".
Proof. split; reflexivity. Qed.

(** ** Which handler takes which error *)

(** The classes declared as templates over the value type. *)
Definition is_template (k : kind) : bool :=
  match k with
  | KRuntime | KSingularMatrix => false
  | KBounds | KLowerBound | KUpperBound | KInvalidValue => true
  end.

(** The kinds a handler declared for kind [h] takes: its own, and for
    BoundsException the two classes derived from it. *)
Definition takes (h k : kind) : bool :=
  kind_eqb h k || (kind_eqb h KBounds && (kind_eqb k KLowerBound || kind_eqb k KUpperBound)).

(** By the class heads of the header: a handler declared for one of the
    six classes is a match for a thrown object of one of them exactly when
    the object's class is the handler's or, for a BoundsException handler,
    LowerBoundException or UpperBoundException, and, for the templates, the
    value types are the same; a handler for std::exception is a match for
    all six; none of the six handlers is a match for a plain
    std::exception. *)
Theorem handler_table :
  forall (vt vt' : cpp_type) (h k : kind),
    handler_matches (class_of_kind vt h) (class_of_kind vt' k)
    = takes h k && (negb (is_template h) || String.eqb (type_name vt) (type_name vt'))
    /\ handler_matches std_exception (class_of_kind vt' k) = true
    /\ handler_matches (class_of_kind vt h) std_exception = false.
Proof.
  intros vt vt' h k. unfold handler_matches.
  split; [| split].
  - destruct h, k; cbn; rewrite ?eqb_append_r, ?orb_false_r; reflexivity.
  - destruct k; reflexivity.
  - destruct h; reflexivity.
Qed.

(** A handler for BoundsException<int> lets a LowerBoundException<double>
    pass. *)
Example handler_of_other_value_type :
  handler_matches (BoundsException_class (cpp_type_of int))
                  (LowerBoundException_class (cpp_type_of double)) = false
  /\ handler_matches (BoundsException_class (cpp_type_of double))
                     (LowerBoundException_class (cpp_type_of double)) = true.
Proof. split; reflexivity. Qed.

(** ** Raising through a reference to the base class *)


(** Raised as what it is, the same object is taken by the handler for the
    derived class. *)
Example raise_without_slicing :
  try_catch catch_LowerBoundException
    (ThrowException (LowerBoundException.ctor "(gpp_foo.cpp: 893)" "Foo" "m" (-1)%Z 0%Z))
    (fun e => Returned (LowerBoundException.min e))
  = Returned 0%Z.
Proof. reflexivity. Qed.

(** ** The names of the classes *)

(** The six [kName] literals differ in their first character: two texts
    that each start with the [kName] of a class and are equal start with
    the name of the same class, whatever follows the names. *)
Theorem kName_identifies_kind :
  forall (k k' : kind) (rest rest' : string),
    kName k ++ rest = kName k' ++ rest' -> k = k'.
Proof.
  intros k k' rest rest' Heq.
  destruct k, k'; try reflexivity; simpl in Heq; discriminate Heq.
Qed.

Lemma kName_identifies_kind_witness :
  kName KLowerBound ++ ": -1 is not in range" = kName KLowerBound ++ ": -1 is not in range"
  /\ KLowerBound = KLowerBound.
Proof.
  split; [reflexivity|].
  exact (kName_identifies_kind KLowerBound KLowerBound
           ": -1 is not in range" ": -1 is not in range" eq_refl).
Defined.

(** The derived classes spell their names "Bound", not "Bounds": the
    name BoundsException does not occur in theirs. *)
Example kName_of_derived_is_not_kName_of_base :
  occurs_in_order [kName KBounds] (kName KLowerBound) = false
  /\ occurs_in_order [kName KBounds] (kName KUpperBound) = false.
Proof. split; reflexivity. Qed.

(** ** The macro in the two configurations *)

(** [OL_THROW_EXCEPTION] with OL_NO_EXCEPTIONS defined: the same
    expansion, in which [ThrowException] is the user's function and gets a
    reference to the temporary the constructor call builds. *)
Definition OL_THROW_EXCEPTION_no_exceptions {T E : Type} `{Throwable T E} {A : Type}
    (user_ThrowException : exn T -> call_end)
    (file : string) (line : Z) (current_function : string)
    (with_args : string -> string -> E) : run T A :=
  ThrowException_no_exceptions user_ThrowException
    (exception_object
       (with_args (OL_STRINGIFY_FILE_AND_LINE file line) current_function)).

(** Defining OL_NO_EXCEPTIONS does not change what is reported: for the
    same use of the macro, the object the user's ThrowException is called
    with (once, whatever follows the macro) is the object that unwinds the
    stack when exceptions are enabled, built from the token of the call
    site and the name of the calling function. *)
Theorem macro_reports_the_same_object_in_both_configurations :
  forall (T E : Type) (TE : Throwable T E) (A B : Type)
         (user_ThrowException : exn T -> call_end)
         (file : string) (line : Z) (current_function : string)
         (with_args : string -> string -> E)
         (k : A -> outcome T B) (k' : A -> run T B),
    (x <- OL_THROW_EXCEPTION file line current_function with_args ;; k x)
    = Unwinding (exception_object
                   (with_args ("(" ++ file ++ ": " ++ int_to_string line ++ ")")
                              current_function))
    /\ events (run_bind (OL_THROW_EXCEPTION_no_exceptions user_ThrowException
                           file line current_function with_args) k')
       = [CallUserThrowException
            (exception_object
               (with_args ("(" ++ file ++ ": " ++ int_to_string line ++ ")")
                          current_function))].
Proof.
  intros. split; [reflexivity|].
  unfold OL_THROW_EXCEPTION_no_exceptions.
  rewrite run_bind_events_of_stopped; [reflexivity|].
  intros a. unfold ThrowException_no_exceptions; simpl.
  destruct (user_ThrowException _); discriminate.
Qed.
